(** * Token authorization demos of Hitachi/oss-assets: a shallow embedding

    Four Python programs are embedded:
    - [introspection-sidecar/app.py]: the admission gate [check];
    - [token-broker-sidecar/app.py]: the two-hop token broker [broker];
    - [03-oauth2.1/get_token.py]: the authorization-code flow [login_flow]
      and its loopback [CallbackHandler];
    - [03-oauth2.1/server_auth.py]: the scope check of the protected tool
      [hello].

    Python [str] values are [string]s, one [ascii] per code point, so the
    text covered is U+0000..U+00FF; this is exactly the range of a request
    header value, which Starlette decodes as latin-1.  Python [bytes] are
    [list byte].  Dictionaries with literal keys are [gmap string _];
    objects decoded from JSON keep their items in a list. *)

From Stdlib Require Import ZArith NArith List String Ascii Bool Lia.
From Stdlib Require Import Strings.Byte.
From stdpp Require Import base option gmap strings list pretty.

Local Open Scope Z_scope.

(** ** Python strings *)

Module Py.

Definition ord (c : ascii) : Z := Z.of_N (N_of_ascii c).
Definition chr (n : Z) : ascii := ascii_of_N (Z.to_N n).

(** [str.lower] on one code point below U+0100: A-Z and the Latin-1
    capitals U+00C0..U+00DE, the multiplication sign U+00D7 excepted. *)
Definition lower_char (c : ascii) : ascii :=
  let n := ord c in
  if ((65 <=? n) && (n <=? 90)) || ((192 <=? n) && (n <=? 222) && negb (n =? 215))
  then chr (n + 32) else c.

Fixpoint lower (s : string) : string :=
  match s with
  | EmptyString => EmptyString
  | String c s' => String (lower_char c) (lower s')
  end.

Fixpoint startswith (s prefix : string) : bool :=
  match prefix, s with
  | EmptyString, _ => true
  | String p prefix', String c s' => (Ascii.eqb c p) && startswith s' prefix'
  | String _ _, EmptyString => false
  end.

(** [str.isspace] on one code point below U+0100. *)
Definition isspace (c : ascii) : bool :=
  let n := ord c in
  ((9 <=? n) && (n <=? 13)) || ((28 <=? n) && (n <=? 32)) || (n =? 133) || (n =? 160).

Fixpoint lstrip (s : string) : string :=
  match s with
  | EmptyString => EmptyString
  | String c s' => if isspace c then lstrip s' else s
  end.

(** [rstrip_by p s] removes the longest suffix of [s] whose characters
    all satisfy [p]. *)
Fixpoint rstrip_by (p : ascii -> bool) (s : string) : string :=
  match s with
  | EmptyString => EmptyString
  | String c s' =>
      match rstrip_by p s' with
      | EmptyString => if p c then EmptyString else String c EmptyString
      | r => String c r
      end
  end.

(** [s.strip()] *)
Definition strip (s : string) : string := rstrip_by isspace (lstrip s).

(** [s.rstrip(chars)] for a one-character [chars]. *)
Definition rstrip (s : string) (chars : ascii) : string :=
  rstrip_by (Ascii.eqb chars) s.

(** [s.split(sep, 1)] for a one-character [sep]: at most one cut, at the
    first occurrence of [sep]. *)
Fixpoint split1 (s : string) (sep : ascii) : list string :=
  match s with
  | EmptyString => [EmptyString]
  | String c s' =>
      if Ascii.eqb c sep then [EmptyString; s']
      else match split1 s' sep with
           | h :: t => String c h :: t
           | [] => [String c EmptyString]
           end
  end.

End Py.

(** ** Python objects

    What [resp.json()] can return, and what the handlers pass around. A
    float is kept as the two things this code can observe of it: whether
    it is non-zero (its truth value) and its [repr]. *)

#[local] Unset Elimination Schemes.
Inductive PyVal : Type :=
| PNone
| PBool (b : bool)
| PInt (n : Z)
| PFloat (nonzero : bool) (repr : string)
| PStr (s : string)
| PList (l : list PyVal)
| PDict (items : list (string * PyVal)).
#[local] Set Elimination Schemes.

(** [bool(v)] *)
Definition truthy (v : PyVal) : bool :=
  match v with
  | PNone => false
  | PBool b => b
  | PInt n => negb (n =? 0)
  | PFloat nz _ => nz
  | PStr s => negb (String.eqb s "")
  | PList l => match l with [] => false | _ => true end
  | PDict items => match items with [] => false | _ => true end
  end.

(** [a or b] *)
Definition py_or (a b : PyVal) : PyVal := if truthy a then a else b.

Definition hexdigit (n : Z) : ascii :=
  if n <? 10 then Py.chr (48 + n) else Py.chr (87 + n).

Definition backslash : ascii := Py.chr 92.
Definition apostrophe : ascii := Py.chr 39.
Definition dquote : ascii := Py.chr 34.

(** [repr] of one character of a [str] inside quotes [q]. *)
Definition repr_char (q : ascii) (c : ascii) : string :=
  let n := Py.ord c in
  if Ascii.eqb c q || (n =? 92) then String backslash (String c "")
  else if n =? 9 then String backslash "t"
  else if n =? 10 then String backslash "n"
  else if n =? 13 then String backslash "r"
  else if (n <? 32) || (n =? 127) || ((128 <=? n) && (n <=? 160)) || (n =? 173)
       then String backslash
              (String "x" (String (hexdigit (n / 16)) (String (hexdigit (n mod 16)) "")))
  else String c "".

Fixpoint contains_char (c : ascii) (s : string) : bool :=
  match s with
  | EmptyString => false
  | String d s' => Ascii.eqb c d || contains_char c s'
  end.

(** [repr] of a [str]: single quotes, unless the text has an apostrophe
    and no double quote. *)
Definition repr_str (s : string) : string :=
  let q := if contains_char apostrophe s && negb (contains_char dquote s)
           then dquote else apostrophe in
  String q (String.concat "" (map (repr_char q) (list_ascii_of_string s)) +:+ String q "").

Definition join (sep : string) (l : list string) : string := String.concat sep l.

(** [repr(v)] *)
Fixpoint py_repr (v : PyVal) : string :=
  match v with
  | PNone => "None"
  | PBool true => "True"
  | PBool false => "False"
  | PInt n => pretty n
  | PFloat _ r => r
  | PStr s => repr_str s
  | PList l => "[" +:+ join ", " (map py_repr l) +:+ "]"
  | PDict items =>
      "{" +:+ join ", " (map (fun kv => repr_str (fst kv) +:+ ": " +:+ py_repr (snd kv)) items) +:+ "}"
  end.

(** [str(v)], also what an f-string field [{v}] expands to. *)
Definition py_str (v : PyVal) : string :=
  match v with
  | PStr s => s
  | _ => py_repr v
  end.

(** Item lookup in the item list of a [dict]. *)
Fixpoint items_get (items : list (string * PyVal)) (key : string) : option PyVal :=
  match items with
  | [] => None
  | (k, v) :: rest => if String.eqb k key then Some v else items_get rest key
  end.


(** ** [bytes], UTF-8 and the [base64] module *)

Definition byte_of_Z (n : Z) : byte := byte_of_ascii (Py.chr n).
Definition Z_of_byte (b : byte) : Z := Z.of_N (Byte.to_N b).

(** [s.encode("utf-8")]: one byte below U+0080, two bytes up to U+00FF. *)
Fixpoint encode_utf8 (s : string) : list byte :=
  match s with
  | EmptyString => []
  | String c s' =>
      let n := Py.ord c in
      if n <? 128 then byte_of_Z n :: encode_utf8 s'
      else byte_of_Z (Z.lor 192 (Z.shiftr n 6))
           :: byte_of_Z (Z.lor 128 (Z.land n 63)) :: encode_utf8 s'
  end.

(** [b.decode("utf-8")] of ASCII bytes, which is all this code decodes:
    the output of a base64 encoder. *)
Definition decode_ascii (b : list byte) : string := string_of_list_byte b.

Module base64.

Definition standard_alphabet : string :=
  "ABCDEFGHIJKLMNOPQRSTUVWXYZabcdefghijklmnopqrstuvwxyz0123456789+/".
Definition urlsafe_alphabet : string :=
  "ABCDEFGHIJKLMNOPQRSTUVWXYZabcdefghijklmnopqrstuvwxyz0123456789-_".

Definition pad : byte := "="%byte.

(** The character of a 6-bit group. *)
Definition digit (alphabet : string) (i : Z) : byte :=
  match String.get (Z.to_nat i) alphabet with
  | Some c => byte_of_ascii c
  | None => pad
  end.

(** Three bytes give four characters; a last group of one or two bytes is
    completed with [=]. *)
Fixpoint encode (alphabet : string) (s : list byte) : list byte :=
  match s with
  | [] => []
  | [a] =>
      let a := Z_of_byte a in
      [digit alphabet (Z.shiftr a 2); digit alphabet (Z.shiftl (Z.land a 3) 4); pad; pad]
  | [a; b] =>
      let a := Z_of_byte a in
      let b := Z_of_byte b in
      [digit alphabet (Z.shiftr a 2);
       digit alphabet (Z.lor (Z.shiftl (Z.land a 3) 4) (Z.shiftr b 4));
       digit alphabet (Z.shiftl (Z.land b 15) 2); pad]
  | a :: b :: c :: rest =>
      let a := Z_of_byte a in
      let b := Z_of_byte b in
      let c := Z_of_byte c in
      digit alphabet (Z.shiftr a 2)
      :: digit alphabet (Z.lor (Z.shiftl (Z.land a 3) 4) (Z.shiftr b 4))
      :: digit alphabet (Z.lor (Z.shiftl (Z.land b 15) 2) (Z.shiftr c 6))
      :: digit alphabet (Z.land c 63)
      :: encode alphabet rest
  end.

Definition b64encode (s : list byte) : list byte := encode standard_alphabet s.
Definition urlsafe_b64encode (s : list byte) : list byte := encode urlsafe_alphabet s.

End base64.

(** ** Handlers: outbound HTTP calls and exceptions *)

Inductive exn : Type :=
| IndexError
| AttributeError
| JSONDecodeError
| TransportError.   (* any [httpx] error of the call itself: refused, timed out, bad URL *)

Module httpx.

(** The arguments of [client.post(url, headers=..., data=...)]. *)
Record request : Type := Request {
  url : string;
  headers : gmap string string;
  data : gmap string PyVal;
}.

(** What the handlers read of a response: [status_code], and [json()],
    which is [None] here when [resp.json()] raises. *)
Record response : Type := Response {
  status_code : Z;
  json : option PyVal;
}.

End httpx.

(** The end of one [await client.post(...)]: a response or an exception. *)
Inductive reply : Type :=
| Replied (r : httpx.response)
| Failed (e : exn).

(** A handler body: it returns, raises, or posts and goes on with the
    reply. *)
Inductive io (A : Type) : Type :=
| Ret (a : A)
| Raise (e : exn)
| Post (rq : httpx.request) (k : reply -> io A).
Arguments Ret {A} a.
Arguments Raise {A} e.
Arguments Post {A} rq k.

Fixpoint io_bind {A B : Type} (f : A -> io B) (m : io A) : io B :=
  match m with
  | Ret a => f a
  | Raise e => Raise e
  | Post rq k => Post rq (fun r => io_bind f (k r))
  end.

#[global] Instance io_mret : MRet io := fun A a => Ret a.
#[global] Instance io_mbind : MBind io := fun A B f m => io_bind f m.

(** [await client.post(...)] *)
Definition post (url : string) (headers : gmap string string) (data : gmap string PyVal)
  : io httpx.response :=
  Post (httpx.Request url headers data)
       (fun r => match r with Replied resp => Ret resp | Failed e => Raise e end).

(** [try: m  except Exception: ...]: the exception, if any, is handed to
    the caller as a value. *)
Fixpoint attempt {A : Type} (m : io A) : io (A + exn) :=
  match m with
  | Ret a => Ret (inl a)
  | Raise e => Ret (inr e)
  | Post rq k => Post rq (fun r => attempt (k r))
  end.

(** [resp.json()] *)
Definition json (resp : httpx.response) : io PyVal :=
  match httpx.json resp with
  | Some v => Ret v
  | None => Raise JSONDecodeError
  end.

(** [v.get(key, default)]: only a [dict] has [get]. *)
Definition get (v : PyVal) (key : string) (dflt : PyVal) : io PyVal :=
  match v with
  | PDict items => Ret (default dflt (items_get items key))
  | _ => Raise AttributeError
  end.

(** [l[i]] on a list *)
Definition getitem {A : Type} (l : list A) (i : nat) : io A :=
  match l !! i with
  | Some x => Ret x
  | None => Raise IndexError
  end.

(** How a handler ends: with a value, or with an exception nobody caught
    (the framework then answers 500 Internal Server Error). *)
Inductive result (A : Type) : Type :=
| Returned (a : A)
| Raised (e : exn).
Arguments Returned {A} a.
Arguments Raised {A} e.

(** The authorization servers: the reply to the [n]-th outbound call. *)
Definition network : Type := nat -> httpx.request -> reply.

(** Runs a handler against a network; also gives the calls made, in
    order, each with its reply. *)
Fixpoint run {A : Type} (net : network) (n : nat) (m : io A)
  : result A * list (httpx.request * reply) :=
  match m with
  | Ret a => (Returned a, [])
  | Raise e => (Raised e, [])
  | Post rq k =>
      let r := net n rq in
      let '(res, calls) := run net (S n) (k r) in
      (res, (rq, r) :: calls)
  end.

(** ** The framework side: requests in, responses out *)

Module os.

(** [os.getenv(key, default)] on the process environment. *)
Definition getenv (environ : gmap string string) (key dflt : string) : string :=
  default dflt (environ !! key).

End os.

Module fastapi.

(** The inbound request: its header list, names in lower case as the
    server hands them over. *)
Record Request : Type := mkRequest {
  headers : list (string * string);
}.

(** [req.headers.get(key, default)]: the first header of that name. *)
Definition headers_get (req : Request) (key dflt : string) : string :=
  match find (fun kv => String.eqb (fst kv) (Py.lower key)) (headers req) with
  | Some kv => snd kv
  | None => dflt
  end.

(** A response as the handler builds it: status, body, the headers it
    passes, and the media type of the response class. *)
Record Response : Type := mkResponse {
  status_code : Z;
  content : string;
  headers_out : gmap string string;
  media_type : option string;
}.

Definition PlainTextResponse (content : string) (status_code : Z) : Response :=
  mkResponse status_code content ∅ (Some "text/plain").

(** A header value must be a [str]: the constructor calls [encode] on it. *)
Definition header_value (v : PyVal) : option string :=
  match v with
  | PStr s => Some s
  | _ => None
  end.

Definition all_str (headers : gmap string PyVal) : bool :=
  forallb (fun kv => bool_decide (is_Some (header_value (snd kv)))) (map_to_list headers).

(** [Response(content=..., status_code=..., headers=...)] *)
Definition Response_ (content : string) (status_code : Z) (headers : gmap string PyVal)
  : io Response :=
  if all_str headers
  then Ret (mkResponse status_code content (omap header_value headers) None)
  else Raise AttributeError.

End fastapi.

Import fastapi.

Definition nonempty (s : string) : bool := negb (String.eqb s "").

(** ** introspection-sidecar/app.py *)

Module introspection_sidecar.
Section app.

Variable environ : gmap string string.

Definition KC_INTROSPECT_URL : string := os.getenv environ "KC_INTROSPECT_URL" "".
Definition KC_CLIENT_ID : string := os.getenv environ "KC_CLIENT_ID" "".
Definition KC_CLIENT_SECRET : string := os.getenv environ "KC_CLIENT_SECRET" "".

Definition _basic_auth_header (cid secret : string) : string :=
  let raw := encode_utf8 (cid +:+ ":" +:+ secret) in
  "Basic " +:+ decode_ascii (base64.b64encode raw).

Definition check (req : Request) : io Response :=
  (* Authorization header required *)
  let auth := headers_get req "authorization" "" in
  if negb (Py.startswith (Py.lower auth) "bearer ")
  then Ret (PlainTextResponse "" 401)
  else
  rest ← getitem (Py.split1 auth " ") 1;
  let token := Py.strip rest in
  (* Config check *)
  if negb (nonempty KC_INTROSPECT_URL && nonempty KC_CLIENT_ID && nonempty KC_CLIENT_SECRET)
  then Ret (PlainTextResponse "misconfigured" 500)
  else
  (* RFC 7662 token introspection *)
  let headers : gmap string string :=
    <["Authorization" := _basic_auth_header KC_CLIENT_ID KC_CLIENT_SECRET]>
    (<["Content-Type" := "application/x-www-form-urlencoded"]> ∅) in
  let data : gmap string PyVal :=
    <["token" := PStr token]> (<["token_type_hint" := PStr "access_token"]> ∅) in
  r ← attempt (post KC_INTROSPECT_URL headers data);
  match r with
  | inr _ => Ret (PlainTextResponse "" 401)
  | inl resp =>
      if 500 <=? httpx.status_code resp
      then Ret (PlainTextResponse "" 401)
      else
      b ← attempt (json resp);
      match b with
      | inr _ => Ret (PlainTextResponse "" 401)
      | inl body =>
          active ← get body "active" (PBool false);
          if negb (truthy active)
          then Ret (PlainTextResponse "" 401)
          else
          (* Allowed: pass minimal user context upstream *)
          sub ← get body "sub" PNone;
          subject ← (if truthy sub then Ret sub
                     else username ← get body "username" PNone;
                          Ret (py_or username (PStr "")));
          scope0 ← get body "scope" PNone;
          let scope := py_or scope0 (PStr "") in
          exp0 ← get body "exp" PNone;
          let exp := PStr (py_str (py_or exp0 (PStr ""))) in
          let headers_out : gmap string PyVal :=
            <["X-Subject" := subject]>
            (<["X-Scope" := scope]>
            (<["X-Token-Exp" := exp]> ∅)) in
          Response_ "" 200 headers_out
      end
  end.

End app.
End introspection_sidecar.

(** ** token-broker-sidecar/app.py *)

Module token_broker_sidecar.
Section app.

Variable environ : gmap string string.

Definition KC_A_TOKEN_URL : string := os.getenv environ "KC_A_TOKEN_URL" "".
Definition KC_A_CLIENT_ID : string := os.getenv environ "KC_A_CLIENT_ID" "".
Definition KC_A_CLIENT_SECRET : string := os.getenv environ "KC_A_CLIENT_SECRET" "".
Definition KC_A_SCOPE : string := os.getenv environ "KC_A_SCOPE" "".

Definition KC_B_TOKEN_URL : string := os.getenv environ "KC_B_TOKEN_URL" "".
Definition KC_B_CLIENT_ID : string := os.getenv environ "KC_B_CLIENT_ID" "".
Definition KC_B_CLIENT_SECRET : string := os.getenv environ "KC_B_CLIENT_SECRET" "".
Definition KC_B_CLIENT_AUTH : string :=
  os.getenv environ "KC_B_CLIENT_AUTH" "client_secret_basic".

Definition _client_auth_fields (client_id client_secret method : string)
  : gmap string PyVal :=
  if String.eqb method "client_secret_post"
  then <["client_id" := PStr client_id]> (<["client_secret" := PStr client_secret]> ∅)
  else ∅.

Definition _basic_auth_header (cid secret : string) : string :=
  let raw := encode_utf8 (cid +:+ ":" +:+ secret) in
  "Basic " +:+ decode_ascii (base64.b64encode raw).

(** Step-A: the token-exchange request at realm A. *)
Definition data_a (incoming : string) : gmap string PyVal :=
  let data_a : gmap string PyVal :=
    <["grant_type" := PStr "urn:ietf:params:oauth:grant-type:token-exchange"]>
    (<["subject_token" := PStr incoming]>
    (<["subject_token_type" := PStr "urn:ietf:params:oauth:token-type:access_token"]> ∅)) in
  if nonempty KC_A_SCOPE then <["scope" := PStr KC_A_SCOPE]> data_a else data_a.

Definition headers_a : gmap string string :=
  <["Authorization" := _basic_auth_header KC_A_CLIENT_ID KC_A_CLIENT_SECRET]>
  (<["Content-Type" := "application/x-www-form-urlencoded"]> ∅).

(** Step-B: the JWT authorization grant at realm B; the two outcomes of
    the test on [KC_B_CLIENT_AUTH]. *)
Definition headers_b : gmap string string :=
  if String.eqb KC_B_CLIENT_AUTH "client_secret_basic"
  then <["Authorization" := _basic_auth_header KC_B_CLIENT_ID KC_B_CLIENT_SECRET]>
       (<["Content-Type" := "application/x-www-form-urlencoded"]> ∅)
  else <["Content-Type" := "application/x-www-form-urlencoded"]> ∅.

Definition data_b (jwt_for_b : PyVal) : gmap string PyVal :=
  let data_b : gmap string PyVal :=
    <["grant_type" := PStr "urn:ietf:params:oauth:grant-type:jwt-bearer"]>
    (<["assertion" := jwt_for_b]> ∅) in
  if String.eqb KC_B_CLIENT_AUTH "client_secret_basic"
  then data_b
  else (* data_b.update(...) *)
       _client_auth_fields KC_B_CLIENT_ID KC_B_CLIENT_SECRET "client_secret_post" ∪ data_b.

(** The body of the [try] block: it leaves with a [return] (left) or
    falls through with [final_token] (right). *)
Definition exchange (incoming : string) : io (Response + PyVal) :=
  r_a ← post KC_A_TOKEN_URL headers_a (data_a incoming);
  if 500 <=? httpx.status_code r_a
  then Ret (inl (PlainTextResponse "" 401))
  else
  body_a ← json r_a;
  (* Access token (JWT) issued for audience B *)
  jwt_for_b ← get body_a "access_token" (PStr "");
  if negb (truthy jwt_for_b)
  then Ret (inl (PlainTextResponse "" 401))
  else
  r_b ← post KC_B_TOKEN_URL headers_b (data_b jwt_for_b);
  if 500 <=? httpx.status_code r_b
  then Ret (inl (PlainTextResponse "" 401))
  else
  body_b ← json r_b;
  (* Final token to be injected upstream *)
  final_token ← get body_b "access_token" (PStr "");
  if negb (truthy final_token)
  then Ret (inl (PlainTextResponse "" 401))
  else Ret (inr final_token).

Definition broker (req : Request) : io Response :=
  (* 1) Extract incoming access token (Bearer). Required. *)
  let auth := headers_get req "authorization" "" in
  if negb (Py.startswith (Py.lower auth) "bearer ")
  then Ret (PlainTextResponse "" 401)
  else
  rest ← getitem (Py.split1 auth " ") 1;
  let incoming := Py.strip rest in
  (* 2) Config check *)
  if negb (nonempty KC_A_TOKEN_URL && nonempty KC_A_CLIENT_ID && nonempty KC_A_CLIENT_SECRET
           && nonempty KC_B_TOKEN_URL && nonempty KC_B_CLIENT_ID
           && nonempty KC_B_CLIENT_SECRET)
  then Ret (PlainTextResponse "misconfigured" 500)
  else
  r ← attempt (exchange incoming);
  match r with
  | inr e => (* the exception is printed *) Ret (PlainTextResponse "" 401)
  | inl (inl early) => Ret early
  | inl (inr final_token) =>
      (* 5) Allow: inject Authorization for upstream request *)
      let headers_out : gmap string PyVal :=
        <["Authorization" := PStr ("Bearer " +:+ py_str final_token)]>
        (<["Cache-Control" := PStr "no-store"]> ∅) in
      Response_ "" 200 headers_out
  end.

End app.
End token_broker_sidecar.

(** ** [hashlib.sha256] (FIPS 180-4), on 32-bit words held in [Z] *)

Module hashlib.

Definition w32 (x : Z) : Z := Z.land x 0xffffffff.
Definition add32 (x y : Z) : Z := w32 (x + y).
Definition rotr (n x : Z) : Z := Z.lor (Z.shiftr x n) (w32 (Z.shiftl x (32 - n))).
Definition not32 (x : Z) : Z := Z.lxor x 0xffffffff.

Definition Ch (x y z : Z) : Z := Z.lxor (Z.land x y) (Z.land (not32 x) z).
Definition Maj (x y z : Z) : Z :=
  Z.lxor (Z.lxor (Z.land x y) (Z.land x z)) (Z.land y z).
Definition Sigma0 (x : Z) : Z := Z.lxor (Z.lxor (rotr 2 x) (rotr 13 x)) (rotr 22 x).
Definition Sigma1 (x : Z) : Z := Z.lxor (Z.lxor (rotr 6 x) (rotr 11 x)) (rotr 25 x).
Definition sigma0 (x : Z) : Z := Z.lxor (Z.lxor (rotr 7 x) (rotr 18 x)) (Z.shiftr x 3).
Definition sigma1 (x : Z) : Z := Z.lxor (Z.lxor (rotr 17 x) (rotr 19 x)) (Z.shiftr x 10).

Definition is_prime (n : nat) : bool :=
  forallb (fun d => negb (Nat.eqb (n mod d) 0)) (seq 2 (n - 2)).

(** The first 64 primes: 2, ..., 311. *)
Definition primes : list Z := map Z.of_nat (filter is_prime (seq 2 310)).

(** The largest [r + x] with [x < 2 ^ bits] whose cube is at most [n]. *)
Fixpoint cube_root (bits : nat) (n r : Z) : Z :=
  match bits with
  | O => r
  | S b =>
      let r' := r + 2 ^ Z.of_nat b in
      cube_root b n (if r' * r' * r' <=? n then r' else r)
  end.

(** The round constants: the first 32 bits of the fractional parts of the
    cube roots of the first 64 primes. *)
Definition K : list Z := map (fun p => w32 (cube_root 40 (p * 2 ^ 96) 0)) primes.

(** The initial hash value: the same of the square roots of the first 8
    primes. *)
Definition H0 : list Z := map (fun p => w32 (Z.sqrt (p * 2 ^ 64))) (firstn 8 primes).

(** Big-endian bytes of a number, [n] of them. *)
Fixpoint be_bytes (n : nat) (x : Z) : list Z :=
  match n with
  | O => []
  | S n' => Z.land (Z.shiftr x (8 * Z.of_nat n')) 255 :: be_bytes n' x
  end.

Definition be_word (bs : list Z) : Z :=
  fold_left (fun acc b => Z.lor (Z.shiftl acc 8) b) bs 0.

(** The message, a 1 bit, zeros, and the bit length on 64 bits: a multiple
    of 64 bytes. *)
Definition padded (msg : list byte) : list Z :=
  let l := Z.of_nat (length msg) in
  map Z_of_byte msg ++ [128] ++ repeat 0 (Z.to_nat ((55 - l) mod 64)) ++ be_bytes 8 (8 * l).

Fixpoint chunks (n : nat) (size : nat) (l : list Z) : list (list Z) :=
  match n with
  | O => []
  | S n' => firstn size l :: chunks n' size (skipn size l)
  end.

(** The message schedule, kept newest word first. *)
Fixpoint schedule (n : nat) (w : list Z) : list Z :=
  match n with
  | O => w
  | S n' =>
      let x := add32 (add32 (sigma1 (nth 1 w 0)) (nth 6 w 0))
                     (add32 (sigma0 (nth 14 w 0)) (nth 15 w 0)) in
      schedule n' (x :: w)
  end.

Definition round (s : list Z) (kw : Z * Z) : list Z :=
  match s with
  | [a; b; c; d; e; f; g; h] =>
      let t1 := add32 (add32 (add32 h (Sigma1 e)) (add32 (Ch e f g) (fst kw))) (snd kw) in
      let t2 := add32 (Sigma0 a) (Maj a b c) in
      [add32 t1 t2; a; b; c; add32 d t1; e; f; g]
  | _ => s
  end.

Definition compress (h : list Z) (block : list Z) : list Z :=
  let w := rev (schedule 48 (rev (map be_word (chunks 16 4 block)))) in
  let s := fold_left round (combine K w) h in
  map (fun p => add32 (fst p) (snd p)) (combine h s).

(** [hashlib.sha256(msg).digest()] *)
Definition sha256 (msg : list byte) : list byte :=
  let p := padded msg in
  let h := fold_left compress (chunks (length p / 64) 64 p) H0 in
  map byte_of_Z (concat (map (be_bytes 4) h)).

End hashlib.

(** ** 03-oauth2.1/get_token.py *)

Module get_token.

Definition KEYCLOAK_SERVER_URL : string := "http://localhost:8080".
Definition KEYCLOAK_REALM : string := "myrealm".
Definition KEYCLOAK_CLIENT_ID : string := "mcp".
Definition KEYCLOAK_CLIENT_SECRET : string := "<secret>".
Definition REDIRECT_URI : string := "http://localhost:8888/callback".
Definition REQUESTED_SCOPE : string := "hello".

(** The module's global variables. *)
Record globals : Type := mkGlobals {
  auth_code : option string;
  code_verifier : option string;
  current_tokens : gmap string PyVal;
}.

Definition initial : globals :=
  mkGlobals None None (<["access_token" := PNone]> (<["refresh_token" := PNone]> ∅)).

Definition set_auth_code (c : option string) (g : globals) : globals :=
  mkGlobals c (code_verifier g) (current_tokens g).
Definition set_code_verifier (v : option string) (g : globals) : globals :=
  mkGlobals (auth_code g) v (current_tokens g).
Definition set_current_tokens (t : gmap string PyVal) (g : globals) : globals :=
  mkGlobals (auth_code g) (code_verifier g) t.

(** What [CallbackHandler] sends back: a status and an HTML page. *)
Record page : Type := mkPage {
  status : Z;
  html : string;
}.

Definition success_html : string :=
  "
            <html>
            <head><title>Authentication Successful</title></head>
            <body>
                <h1>Authentication Successful!</h1>
                <p>You can close this window and return to the terminal.</p>
            </body>
            </html>
            ".

(** [CallbackHandler.do_GET], on [query_params = parse_qs(urlparse(self.path).query)]:
    a dictionary from parameter names to the list of their values. *)
Definition do_GET (query_params : gmap string (list string)) (g : globals)
  : result (globals * option page) :=
  match query_params !! "code" with
  | Some codes =>
      match codes !! 0%nat with
      | Some c => Returned (set_auth_code (Some c) g, Some (mkPage 200 success_html))
      | None => Raised IndexError
      end
  | None =>
      match query_params !! "error" with
      | Some errors =>
          match errors !! 0%nat with
          | Some error =>
              match default [""] (query_params !! "error_description") !! 0%nat with
              | Some error_description =>
                  Returned (g, Some (mkPage 400 ("<h1>Authentication Error</h1><p>" +:+ error
                                                 +:+ ": " +:+ error_description +:+ "</p>")))
              | None => Raised IndexError
              end
          | None => Raised IndexError
          end
      | None => Returned (g, None)
      end
  end.

(** [if auth_code:] *)
Definition has_code (g : globals) : bool :=
  match auth_code g with
  | Some c => nonempty c
  | None => false
  end.

(** The keyword arguments of [keycloak_openid.token(...)], with the
    [Authorization] header added to the connection before the call. *)
Record token_call : Type := mkTokenCall {
  grant_type : string;
  code : string;
  redirect_uri : string;
  call_code_verifier : string;
  authorization : string;
}.

(** What one run of [login_flow] does: the value returned, the globals
    left behind, the parameters of the authorization URL opened in the
    browser, and the token requests made. *)
Record run_of_flow : Type := mkRun {
  returned : bool;
  globals_after : globals;
  opened : gmap string string;
  token_calls : list token_call;
}.

Section login.

(** [secrets.token_bytes] *)
Variable token_bytes : nat -> list byte.
(** The single request the callback server handles, if one comes, and
    the second of the wait during which it comes. *)
Variable callback : option (nat * gmap string (list string)).
(** [keycloak_openid.token]: the token response, or an exception. *)
Variable keycloak_token : token_call -> result PyVal.

(** The PKCE parameters: [(code_verifier, code_challenge)]. *)
Definition pkce : string * string :=
  let code_verifier :=
    Py.rstrip (decode_ascii (base64.urlsafe_b64encode (token_bytes 32))) "=" in
  let code_challenge :=
    Py.rstrip (decode_ascii (base64.urlsafe_b64encode
                               (hashlib.sha256 (encode_utf8 code_verifier)))) "=" in
  (code_verifier, code_challenge).

Definition auth_params (code_challenge : string) : gmap string string :=
  <["client_id" := KEYCLOAK_CLIENT_ID]>
  (<["redirect_uri" := REDIRECT_URI]>
  (<["response_type" := "code"]>
  (<["scope" := REQUESTED_SCOPE]>
  (<["state" := "random_state"]>
  (<["code_challenge" := code_challenge]>
  (<["code_challenge_method" := "S256"]> ∅)))))).

(** One second of the wait: the server thread may handle its request. *)
Definition sleep (i : nat) (g : globals) : globals :=
  match callback with
  | Some (t, query_params) =>
      if Nat.eqb t i
      then match do_GET query_params g with
           | Returned (g', _) => g'
           | Raised _ => g
           end
      else g
  | None => g
  end.

(** [for i in range(120): await asyncio.sleep(1); if auth_code: break],
    with [n] iterations left. *)
Fixpoint wait (n i : nat) (g : globals) : globals :=
  match n with
  | O => g
  | S n' =>
      let g := sleep i g in
      if has_code g then g else wait n' (S i) g
  end.

Definition login_flow (g : globals) : run_of_flow :=
  let g := set_auth_code None g in
  (* Generate PKCE parameters *)
  let '(verifier, code_challenge) := pkce in
  let g := set_code_verifier (Some verifier) g in
  (* Create authorization URL, start callback server, open the browser *)
  let params := auth_params code_challenge in
  (* Wait for authorization code *)
  let g := wait 120 0 g in
  if negb (has_code g)
  then mkRun false g params []
  else
  (* Exchange authorization code for access token *)
  let credentials := KEYCLOAK_CLIENT_ID +:+ ":" +:+ KEYCLOAK_CLIENT_SECRET in
  let basic_auth := decode_ascii (base64.b64encode (encode_utf8 credentials)) in
  let call := mkTokenCall "authorization_code" (default "" (auth_code g)) REDIRECT_URI
                          (default "" (code_verifier g)) ("Basic " +:+ basic_auth) in
  match keycloak_token call with
  | Raised _ => mkRun false g params [call]
  | Returned (PDict items) =>
      let tokens :=
        <["refresh_token" := default PNone (items_get items "refresh_token")]>
        (<["access_token" := default PNone (items_get items "access_token")]>
         (current_tokens g)) in
      mkRun true (set_current_tokens tokens g) params [call]
  | Returned _ => mkRun false g params [call]
  end.

End login.
End get_token.

(** ** 03-oauth2.1/server_auth.py *)

Module server_auth.

(** What [hello] reads of [mcp_auth.auth_info]: the scopes of the token
    the bearer middleware verified. *)
Record AuthInfo : Type := mkAuthInfo {
  scopes : list string;
}.

Inductive BearerAuthExceptionCode : Type :=
| MISSING_REQUIRED_SCOPES.

Inductive raised : Type :=
| MCPAuthBearerAuthException (code : BearerAuthExceptionCode).

(** [scope in user_scopes] *)
Definition scope_in (scope : string) (user_scopes : list string) : bool :=
  existsb (fun s => String.eqb s scope) user_scopes.

Definition has_required_scopes (user_scopes required_scopes : list string) : bool :=
  forallb (fun scope => scope_in scope user_scopes) required_scopes.

(** The tool, on the value of [mcp_auth.auth_info]: [None] when the
    request carried no verified token. *)
Definition hello (auth_info : option AuthInfo) : string + raised :=
  let user_scopes := match auth_info with
                     | Some info => scopes info
                     | None => []
                     end in
  if negb (has_required_scopes user_scopes ["hello"])
  then inr (MCPAuthBearerAuthException MISSING_REQUIRED_SCOPES)
  else inl "Hello.".

End server_auth.

(** ** Vocabulary of the properties *)

(** The ext-authz answers. *)
Definition DENY : Response := PlainTextResponse "" 401.
Definition MISCONFIGURED : Response := PlainTextResponse "misconfigured" 500.

Definition is_allow (res : result Response) : bool :=
  match res with
  | Returned resp => status_code resp =? 200
  | Raised _ => false
  end.

(** The [Authorization] header as both handlers read it, and their test
    on it. *)
Definition authorization_of (req : Request) : string :=
  headers_get req "authorization" "".

Definition has_bearer (req : Request) : bool :=
  Py.startswith (Py.lower (authorization_of req)) "bearer ".

Definition all_space (s : string) : bool :=
  forallb Py.isspace (list_ascii_of_string s).

(** Every value of the list is set, and not empty. *)
Definition configured (environ : gmap string string) (keys : list string) : bool :=
  forallb (fun k => nonempty (os.getenv environ k "")) keys.

Definition gate_keys : list string :=
  ["KC_INTROSPECT_URL"; "KC_CLIENT_ID"; "KC_CLIENT_SECRET"].

Definition broker_keys : list string :=
  ["KC_A_TOKEN_URL"; "KC_A_CLIENT_ID"; "KC_A_CLIENT_SECRET";
   "KC_B_TOKEN_URL"; "KC_B_CLIENT_ID"; "KC_B_CLIENT_SECRET"].

(** A field of a decoded body, when the body is an object that has it. *)
Definition field (body : PyVal) (key : string) : option PyVal :=
  match body with
  | PDict items => items_get items key
  | _ => None
  end.

Definition json_field (resp : httpx.response) (key : string) : option PyVal :=
  match httpx.json resp with
  | Some body => field body key
  | None => None
  end.

(** How a handler body that makes no call ends. *)
Definition finish (m : io Response) : result Response :=
  match m with
  | Ret r => Returned r
  | Raise e => Raised e
  | Post _ _ => Raised TransportError
  end.

(** *** The gate, call by call *)

Definition introspection_request (environ : gmap string string) (token : string)
  : httpx.request :=
  httpx.Request
    (introspection_sidecar.KC_INTROSPECT_URL environ)
    (<["Authorization" :=
         introspection_sidecar._basic_auth_header
           (introspection_sidecar.KC_CLIENT_ID environ)
           (introspection_sidecar.KC_CLIENT_SECRET environ)]>
     (<["Content-Type" := "application/x-www-form-urlencoded"]> ∅))
    (<["token" := PStr token]> (<["token_type_hint" := PStr "access_token"]> ∅)).

Definition identity_headers (items : list (string * PyVal)) : gmap string PyVal :=
  let sub := default PNone (items_get items "sub") in
  let subject := if truthy sub then sub
                 else py_or (default PNone (items_get items "username")) (PStr "") in
  <["X-Subject" := subject]>
  (<["X-Scope" := py_or (default PNone (items_get items "scope")) (PStr "")]>
  (<["X-Token-Exp" :=
       PStr (py_str (py_or (default PNone (items_get items "exp")) (PStr "")))]> ∅)).

(** The gate's answer as a function of the introspection reply; lemma
    [run_check_call] shows that [check] computes it. *)
Definition gate_answer (r : reply) : result Response :=
  match r with
  | Failed _ => Returned DENY
  | Replied resp =>
      if 500 <=? httpx.status_code resp then Returned DENY
      else match httpx.json resp with
           | None => Returned DENY
           | Some (PDict items) =>
               if truthy (default (PBool false) (items_get items "active"))
               then finish (Response_ "" 200 (identity_headers items))
               else Returned DENY
           | Some _ => Raised AttributeError
           end
  end.

(** The introspection outcomes the gate answers with DENY: an exception
    of the call, a status of 500 or more, a body that does not decode,
    an object whose [active] is missing or has the truth value False. *)
Definition refusal (r : reply) : bool :=
  match r with
  | Failed _ => true
  | Replied resp =>
      (500 <=? httpx.status_code resp)
      || match httpx.json resp with
         | None => true
         | Some (PDict items) =>
             negb (truthy (default (PBool false) (items_get items "active")))
         | Some _ => false
         end
  end.

(** The same list with the last case as the specification words it: the
    [active] field of the decoded body is not [true]. *)
Definition refusal_as_stated (r : reply) : bool :=
  match r with
  | Failed _ => true
  | Replied resp =>
      (500 <=? httpx.status_code resp)
      || match httpx.json resp with
         | None => true
         | Some body =>
             match field body "active" with
             | Some (PBool true) => false
             | _ => true
             end
         end
  end.

(** *** The broker, call by call *)

(** The truthy [access_token] of a decoded object, if there is one. *)
Definition access_token (resp : httpx.response) : option PyVal :=
  match httpx.json resp with
  | Some (PDict items) =>
      match items_get items "access_token" with
      | Some tok => if truthy tok then Some tok else None
      | None => None
      end
  | _ => None
  end.

(** The token a hop yields: the [access_token] of a response whose status
    is below 500. *)
Definition hop_token (r : reply) : option PyVal :=
  match r with
  | Failed _ => None
  | Replied resp => if 500 <=? httpx.status_code resp then None else access_token resp
  end.

Definition hop_a_request (environ : gmap string string) (incoming : string)
  : httpx.request :=
  httpx.Request (token_broker_sidecar.KC_A_TOKEN_URL environ)
                (token_broker_sidecar.headers_a environ)
                (token_broker_sidecar.data_a environ incoming).

Definition hop_b_request (environ : gmap string string) (jwt_for_b : PyVal)
  : httpx.request :=
  httpx.Request (token_broker_sidecar.KC_B_TOKEN_URL environ)
                (token_broker_sidecar.headers_b environ)
                (token_broker_sidecar.data_b environ jwt_for_b).

Definition bearer_headers (final_token : PyVal) : gmap string PyVal :=
  <["Authorization" := PStr ("Bearer " +:+ py_str final_token)]>
  (<["Cache-Control" := PStr "no-store"]> ∅).

(** The broker's run as a function of the two replies; lemma
    [run_broker_call] shows that [broker] computes it. *)
Definition broker_run (environ : gmap string string) (net : network) (incoming : string)
  : result Response * list (httpx.request * reply) :=
  let rq_a := hop_a_request environ incoming in
  let r_a := net 0%nat rq_a in
  match hop_token r_a with
  | None => (Returned DENY, [(rq_a, r_a)])
  | Some jwt_for_b =>
      let rq_b := hop_b_request environ jwt_for_b in
      let r_b := net 1%nat rq_b in
      match hop_token r_b with
      | None => (Returned DENY, [(rq_a, r_a); (rq_b, r_b)])
      | Some final_token =>
          (finish (Response_ "" 200 (bearer_headers final_token)),
           [(rq_a, r_a); (rq_b, r_b)])
      end
  end.

(** Substring test. *)
Fixpoint contains (needle hay : string) : bool :=
  Py.startswith hay needle
  || match hay with
     | EmptyString => false
     | String _ hay' => contains needle hay'
     end.

(** A text shows in a response: in its body or in one of its headers. *)
Definition shows (text : string) (resp : Response) : bool :=
  contains text (content resp)
  || existsb (fun kv => contains text (snd kv)) (map_to_list (headers_out resp)).

(** *** PKCE, in the words of the specification *)

Definition base64url_digit (i : Z) : ascii :=
  if i <? 26 then Py.chr (65 + i)
  else if i <? 52 then Py.chr (97 + (i - 26))
  else if i <? 62 then Py.chr (48 + (i - 52))
  else if i =? 62 then "-"%char else "_"%char.

Definition bit (x : byte) (i : Z) : bool := Z.testbit (Z_of_byte x) i.

(** The bits of a byte string, most significant first. *)
Fixpoint bits_of_bytes (s : list byte) : list bool :=
  match s with
  | [] => []
  | b :: s' => map (bit b) [7; 6; 5; 4; 3; 2; 1; 0] ++ bits_of_bytes s'
  end.

Definition bits_value (bits : list bool) : Z :=
  fold_left (fun acc (b : bool) => 2 * acc + (if b then 1 else 0)) bits 0.

(** Groups of six bits; the last group is completed with zeros. *)
Fixpoint sextets (bits : list bool) : list Z :=
  match bits with
  | [] => []
  | b5 :: b4 :: b3 :: b2 :: b1 :: b0 :: rest =>
      bits_value [b5; b4; b3; b2; b1; b0] :: sextets rest
  | _ => [bits_value (firstn 6 (bits ++ [false; false; false; false; false]))]
  end.

(** Unpadded base64url: one digit per group of six bits. *)
Definition unpadded_base64url (s : list byte) : string :=
  string_of_list_ascii (map base64url_digit (sextets (bits_of_bytes s))).

(** The six bits that a digit stands for. *)
Definition digit_bits (c : ascii) : list bool :=
  let n := Py.ord c in
  let v := if (65 <=? n) && (n <=? 90) then n - 65
           else if (97 <=? n) && (n <=? 122) then n - 71
           else if (48 <=? n) && (n <=? 57) then n + 4
           else if n =? 45 then 62 else 63 in
  map (Z.testbit v) [5; 4; 3; 2; 1; 0].

Definition is_base64url_char (c : ascii) : bool :=
  let n := Py.ord c in
  ((65 <=? n) && (n <=? 90)) || ((97 <=? n) && (n <=? 122)) || ((48 <=? n) && (n <=? 57))
  || (n =? 45) || (n =? 95).

(** *** The callback, in the words of the specification *)

(** The [state] sent with the authorization request. *)
Definition state_sent : string := "random_state".

(** The callback returns the [state] that was sent. *)
Definition state_matches (query_params : gmap string (list string)) : bool :=
  match query_params !! "state" with
  | Some (st :: _) => String.eqb st state_sent
  | _ => false
  end.

(** *** Identity headers, token delivery and decoders *)

(** The text of a field that holds a non-empty text; [dflt] otherwise. *)
Definition text_or (v : option PyVal) (dflt : string) : string :=
  match v with
  | Some (PStr s) => if nonempty s then s else dflt
  | _ => dflt
  end.

(** The first value of a query parameter, when it is a non-empty text. *)
Definition code_of (query_params : gmap string (list string)) : option string :=
  match query_params !! "code" with
  | Some (c :: _) => if nonempty c then Some c else None
  | _ => None
  end.

(** The code that reaches the flow: the one of a callback handled within
    the 120 seconds of the wait. *)
Definition delivered (callback : option (nat * gmap string (list string)))
  : option string :=
  match callback with
  | Some (t, query_params) => if (t <? 120)%nat then code_of query_params else None
  | None => None
  end.

(** The characters of standard base64 text, [=] included. *)
Definition is_base64_char (c : ascii) : bool :=
  let n := Py.ord c in
  ((65 <=? n) && (n <=? 90)) || ((97 <=? n) && (n <=? 122)) || ((48 <=? n) && (n <=? 57))
  || (n =? 43) || (n =? 47) || (n =? 61).

(** The six bits that a digit of the standard alphabet stands for. *)
Definition standard_digit_bits (c : byte) : list bool :=
  let n := Z_of_byte c in
  let v := if (65 <=? n) && (n <=? 90) then n - 65
           else if (97 <=? n) && (n <=? 122) then n - 71
           else if (48 <=? n) && (n <=? 57) then n + 4
           else if n =? 43 then 62 else 63 in
  map (Z.testbit v) [5; 4; 3; 2; 1; 0].

(** The first character of a UTF-8 text of one- and two-byte sequences. *)
Definition utf8_first (bs : list byte) : option ascii :=
  match bs with
  | [] => None
  | b :: rest =>
      if Z_of_byte b <? 128 then Some (Py.chr (Z_of_byte b))
      else match rest with
           | [] => None
           | b' :: _ =>
               Some (Py.chr (Z.lor (Z.shiftl (Z.land (Z_of_byte b) 3) 6)
                                   (Z.land (Z_of_byte b') 63)))
           end
  end.

(** The token request of a run that received the code [c]. *)
Definition token_request (token_bytes : nat -> list byte) (c : string)
  : get_token.token_call :=
  let credentials :=
    get_token.KEYCLOAK_CLIENT_ID +:+ ":" +:+ get_token.KEYCLOAK_CLIENT_SECRET in
  let basic_auth := decode_ascii (base64.b64encode (encode_utf8 credentials)) in
  get_token.mkTokenCall "authorization_code" c get_token.REDIRECT_URI
    (fst (get_token.pkce token_bytes)) ("Basic " +:+ basic_auth).

(** *** Sample inputs *)

Module Sample.

Definition gate_environ : gmap string string :=
  <["KC_INTROSPECT_URL" := "http://keycloak/introspect"]>
  (<["KC_CLIENT_ID" := "gate"]>
  (<["KC_CLIENT_SECRET" := "s3cret"]> ∅)).

Definition broker_environ : gmap string string :=
  <["KC_A_TOKEN_URL" := "http://a/token"]>
  (<["KC_A_CLIENT_ID" := "broker-a"]>
  (<["KC_A_CLIENT_SECRET" := "secret-a"]>
  (<["KC_B_TOKEN_URL" := "http://b/token"]>
  (<["KC_B_CLIENT_ID" := "broker-b"]>
  (<["KC_B_CLIENT_SECRET" := "secret-b"]> ∅))))).

(** The same broker with [KC_B_CLIENT_AUTH=client_secret_post]. *)
Definition broker_environ_post : gmap string string :=
  <["KC_B_CLIENT_AUTH" := "client_secret_post"]> broker_environ.

Definition request (auth : string) : Request := mkRequest [("authorization", auth)].

(** An authorization server that gives every call the same answer. *)
Definition answering (status : Z) (body : PyVal) : network :=
  fun _ _ => Replied (httpx.Response status (Some body)).

Definition alice : PyVal :=
  PDict [("active", PBool true); ("sub", PStr "alice"); ("scope", PStr "hello");
         ("exp", PInt 1999999999)].

(** An introspection body whose [active] is the text [false]. *)
Definition active_as_text : PyVal := PDict [("active", PStr "false")].

Definition inactive : PyVal := PDict [("active", PBool false)].

Definition token_body (tok : string) : PyVal := PDict [("access_token", PStr tok)].

(** Realm A answers the first call, realm B the second. *)
Definition two_hops (a b : reply) : network :=
  fun n _ => match n with
             | O => a
             | _ => b
             end.

Definition ok (body : PyVal) : reply := Replied (httpx.Response 200 (Some body)).

(** A callback whose [state] is not the one that was sent. *)
Definition forged_callback : gmap string (list string) :=
  <["code" := ["ABC"]]> (<["state" := ["forged"]]> ∅).

Definition zero_bytes (n : nat) : list byte := repeat "000"%byte n.

Definition token_endpoint : get_token.token_call -> result PyVal :=
  fun _ => Returned (PDict [("access_token", PStr "at"); ("refresh_token", PStr "rt")]).

End Sample.

(** *** More sample inputs *)

Module Scenario.

(** An active token described by [username] only. *)
Definition bob : PyVal := PDict [("active", PBool true); ("username", PStr "bob")].



(** The gate's call for the token [tok], answered 200 with [body]. *)
Definition gate_call (body : PyVal) : httpx.request * reply :=
  (introspection_request Sample.gate_environ "tok",
   Replied (httpx.Response 200 (Some body))).

(** The broker with [KC_A_SCOPE=mcp-b]. *)
Definition scoped_environ : gmap string string :=
  <["KC_A_SCOPE" := "mcp-b"]> Sample.broker_environ.

Definition hop_a (incoming : string) : httpx.request :=
  hop_a_request scoped_environ incoming.

(** The callback of a user who denied consent. *)
Definition denied : gmap string (list string) :=
  <["error" := ["access_denied"]]> (<["error_description" := ["User denied"]]> ∅).

End Scenario.

(** * Properties *)

(** ** Strings *)

Lemma append_cons c s t : String c s +:+ t = String c (s +:+ t).
Proof. reflexivity. Qed.

Lemma lower_cons c s : Py.lower (String c s) = String (Py.lower_char c) (Py.lower s).
Proof. reflexivity. Qed.

Lemma contains_char_cons c d s :
  contains_char c (String d s) = Ascii.eqb c d || contains_char c s.
Proof. reflexivity. Qed.

(** Lower-casing neither makes nor removes a space. *)
Lemma lower_char_space c : Ascii.eqb (Py.lower_char c) " " = Ascii.eqb c " ".
Proof. destruct c as [[] [] [] [] [] [] [] []]; reflexivity. Qed.

Lemma lower_app s t : Py.lower (s +:+ t) = Py.lower s +:+ Py.lower t.
Proof.
  induction s as [|c s IH]; [reflexivity |].
  now rewrite append_cons, !lower_cons, IH, append_cons.
Qed.

Lemma startswith_app s p : Py.startswith s p = true <-> exists t, s = p +:+ t.
Proof.
  revert s. induction p as [|c p IH]; intros s.
  - split; [intros _; now exists s | intros _; destruct s; reflexivity].
  - destruct s as [|d s]; simpl.
    + split; [discriminate | intros [t Ht]; discriminate].
    + rewrite andb_true_iff, Ascii.eqb_eq, IH. split.
      * intros [-> [t ->]]. now exists t.
      * intros [t Ht]. injection Ht as -> ->. split; [reflexivity | now exists t].
Qed.

Lemma lower_no_space s t :
  Py.lower s = t -> contains_char " " t = false -> contains_char " " s = false.
Proof.
  revert t. induction s as [|c s IH]; intros t <-; [reflexivity |].
  rewrite lower_cons, !contains_char_cons, !orb_false_iff. intros [H1 H2]. split.
  - rewrite Ascii.eqb_sym in H1 |- *. now rewrite lower_char_space in H1.
  - now apply (IH _ eq_refl).
Qed.

(** The cut of [split(" ", 1)] is at the first space. *)
Lemma split1_first_space scheme rest :
  contains_char " " scheme = false ->
  Py.split1 (scheme +:+ String " " rest) " " = [scheme; rest].
Proof.
  induction scheme as [|c s IH]; [reflexivity |].
  rewrite contains_char_cons, orb_false_iff. intros [H1 H2].
  rewrite Ascii.eqb_sym in H1. rewrite append_cons. cbn [Py.split1].
  rewrite H1, (IH H2). reflexivity.
Qed.

Lemma lower_prefix s p t :
  Py.lower s = p +:+ t ->
  exists s1 s2, s = s1 +:+ s2 /\ Py.lower s1 = p /\ Py.lower s2 = t.
Proof.
  revert s. induction p as [|c p IH]; intros s; simpl.
  - intros H. now exists ""%string, s.
  - destruct s as [|d s]; simpl; [discriminate |].
    intros H. injection H as H1 H2. destruct (IH _ H2) as (s1 & s2 & -> & H3 & H4).
    exists (String d s1), s2. simpl. now rewrite H1, H3, H4.
Qed.

(** The header test accepts exactly a spelling of [bearer], in any case,
    followed by a space. *)
Lemma bearer_shape auth :
  Py.startswith (Py.lower auth) "bearer " = true <->
  exists scheme rest, auth = scheme +:+ String " " rest /\ Py.lower scheme = "bearer".
Proof.
  split.
  - intros H. apply startswith_app in H as [t Ht].
    change ("bearer " +:+ t) with ("bearer" +:+ String " " t) in Ht.
    apply lower_prefix in Ht as (s1 & s2 & -> & H1 & H2).
    destruct s2 as [|c s2]; [discriminate |]. simpl in H2. injection H2 as H2 _.
    assert (c = " "%char) as ->.
    { apply Ascii.eqb_eq. rewrite <- lower_char_space. now apply Ascii.eqb_eq. }
    now exists s1, s2.
  - intros (scheme & rest & -> & H). apply startswith_app.
    exists (Py.lower rest). rewrite lower_app, H. reflexivity.
Qed.

Lemma lstrip_all_space s : all_space s = true -> Py.lstrip s = ""%string.
Proof.
  unfold all_space. induction s as [|c s IH]; [reflexivity |].
  cbn [list_ascii_of_string forallb Py.lstrip]. rewrite andb_true_iff.
  intros [-> H]. now apply IH.
Qed.

Lemma strip_all_space s : all_space s = true -> Py.strip s = ""%string.
Proof. intros H. unfold Py.strip. now rewrite lstrip_all_space. Qed.

Lemma rstrip_by_all p s :
  forallb p (list_ascii_of_string s) = true -> Py.rstrip_by p s = ""%string.
Proof.
  induction s as [|c s IH]; [reflexivity |].
  cbn [list_ascii_of_string forallb Py.rstrip_by].
  rewrite andb_true_iff. intros [H1 H2]. now rewrite (IH H2), H1.
Qed.

Lemma rstrip_by_app p s t :
  forallb (fun c => negb (p c)) (list_ascii_of_string s) = true ->
  forallb p (list_ascii_of_string t) = true ->
  Py.rstrip_by p (s +:+ t) = s.
Proof.
  intros Hs Ht. induction s as [|c s IH]; [now apply rstrip_by_all |].
  cbn [list_ascii_of_string forallb] in Hs. apply andb_true_iff in Hs as [H1 H2].
  rewrite append_cons. cbn [Py.rstrip_by]. rewrite (IH H2).
  apply negb_true_iff in H1. rewrite H1. now destruct s.
Qed.

Lemma forallb_impl {A} (p q : A -> bool) l :
  (forall x, p x = true -> q x = true) -> forallb p l = true -> forallb q l = true.
Proof.
  intros H. induction l as [|x l IH]; [reflexivity |]. cbn [forallb].
  rewrite !andb_true_iff. intros [H1 H2]. split; [now apply H | now apply IH].
Qed.

Lemma forallb_map_comp {A B} (f : A -> B) (p : B -> bool) l :
  forallb p (List.map f l) = forallb (fun x => p (f x)) l.
Proof. induction l as [|x l IH]; [reflexivity |]. cbn. now rewrite IH. Qed.

Lemma contains_empty text : nonempty text = true -> contains text "" = false.
Proof. destruct text; [discriminate | reflexivity]. Qed.

(** ** The two handlers, call by call *)

Ltac step :=
  cbn -[token_broker_sidecar._basic_auth_header introspection_sidecar._basic_auth_header
        Response_ token_broker_sidecar.headers_a token_broker_sidecar.headers_b
        token_broker_sidecar.data_a token_broker_sidecar.data_b].

Lemma has_bearer_shape req :
  has_bearer req = true <->
  exists scheme rest,
    authorization_of req = scheme +:+ String " " rest /\ Py.lower scheme = "bearer".
Proof. apply bearer_shape. Qed.

Lemma getitem_split req scheme rest :
  authorization_of req = scheme +:+ String " " rest ->
  Py.lower scheme = "bearer" ->
  getitem (Py.split1 (headers_get req "authorization" "") " ") 1 = Ret rest.
Proof.
  intros H1 H2. fold (authorization_of req). rewrite H1.
  rewrite split1_first_space; [reflexivity |].
  now apply (lower_no_space _ _ H2).
Qed.

Lemma run_Response_ net n content status headers :
  run net n (Response_ content status headers)
  = (finish (Response_ content status headers), []).
Proof. unfold Response_. destruct (all_str headers); reflexivity. Qed.

Lemma configured_gate environ :
  configured environ gate_keys
  = nonempty (introspection_sidecar.KC_INTROSPECT_URL environ)
    && nonempty (introspection_sidecar.KC_CLIENT_ID environ)
    && nonempty (introspection_sidecar.KC_CLIENT_SECRET environ).
Proof.
  unfold configured, gate_keys. cbn [forallb].
  now rewrite andb_true_r, andb_assoc.
Qed.

Lemma configured_broker environ :
  configured environ broker_keys
  = nonempty (token_broker_sidecar.KC_A_TOKEN_URL environ)
    && nonempty (token_broker_sidecar.KC_A_CLIENT_ID environ)
    && nonempty (token_broker_sidecar.KC_A_CLIENT_SECRET environ)
    && nonempty (token_broker_sidecar.KC_B_TOKEN_URL environ)
    && nonempty (token_broker_sidecar.KC_B_CLIENT_ID environ)
    && nonempty (token_broker_sidecar.KC_B_CLIENT_SECRET environ).
Proof.
  unfold configured, broker_keys. cbn [forallb].
  now rewrite andb_true_r, !andb_assoc.
Qed.

(** A value that is missing, or empty, leaves the handler unconfigured. *)
Lemma unconfigured environ keys k :
  In k keys -> os.getenv environ k "" = ""%string -> configured environ keys = false.
Proof.
  intros Hin Hk. unfold configured. apply not_true_iff_false. intros H.
  rewrite forallb_forall in H. specialize (H k Hin). now rewrite Hk in H.
Qed.

Section Gate.

Import introspection_sidecar.
Variables (environ : gmap string string) (req : Request) (net : network).

Lemma run_check_refused :
  has_bearer req = false -> run net 0 (check environ req) = (Returned DENY, []).
Proof.
  intros H. unfold check. fold (authorization_of req). fold (has_bearer req).
  rewrite H. reflexivity.
Qed.

Lemma run_check_misconfigured :
  has_bearer req = true -> configured environ gate_keys = false ->
  run net 0 (check environ req) = (Returned MISCONFIGURED, []).
Proof.
  intros H C. destruct (proj1 (has_bearer_shape _) H) as (scheme & rest & H1 & H2).
  unfold check. fold (authorization_of req). fold (has_bearer req). rewrite H.
  cbn [negb]. unfold authorization_of. rewrite (getitem_split _ _ _ H1 H2).
  rewrite configured_gate in C. step. rewrite C. reflexivity.
Qed.

(** With a Bearer header and a full configuration the gate makes one
    call, the introspection of the stripped token, and answers from its
    reply. *)
Lemma run_check_call scheme rest :
  authorization_of req = scheme +:+ String " " rest ->
  Py.lower scheme = "bearer" ->
  configured environ gate_keys = true ->
  let rq := introspection_request environ (Py.strip rest) in
  run net 0 (check environ req) = (gate_answer (net 0%nat rq), [(rq, net 0%nat rq)]).
Proof.
  intros H1 H2 C rq.
  assert (H : has_bearer req = true).
  { apply has_bearer_shape. now exists scheme, rest. }
  unfold check. fold (authorization_of req). fold (has_bearer req). rewrite H.
  cbn [negb]. unfold authorization_of. rewrite (getitem_split _ _ _ H1 H2).
  rewrite configured_gate in C. step. rewrite C. step.
  fold (introspection_request environ (Py.strip rest)). fold rq.
  destruct (net 0%nat rq) as [[st js]|e]; step; [|reflexivity].
  destruct (500 <=? st); [reflexivity |].
  destruct js as [body|]; [|reflexivity].
  destruct body; step; try reflexivity.
  destruct (truthy (default (PBool false) (items_get items "active"))); [|reflexivity].
  step. unfold identity_headers.
  destruct (truthy (default PNone (items_get items "sub")));
    step; rewrite run_Response_; reflexivity.
Qed.

(** Every run of the gate: no call, or the one introspection call. *)
Lemma run_check_cases :
  (has_bearer req = false /\ run net 0 (check environ req) = (Returned DENY, []))
  \/ (has_bearer req = true /\ configured environ gate_keys = false
      /\ run net 0 (check environ req) = (Returned MISCONFIGURED, []))
  \/ (exists scheme rest,
        authorization_of req = scheme +:+ String " " rest
        /\ Py.lower scheme = "bearer"
        /\ configured environ gate_keys = true
        /\ let rq := introspection_request environ (Py.strip rest) in
           run net 0 (check environ req)
           = (gate_answer (net 0%nat rq), [(rq, net 0%nat rq)])).
Proof.
  destruct (has_bearer req) eqn:H; [|left; split; [reflexivity | now apply run_check_refused]].
  right. destruct (configured environ gate_keys) eqn:C.
  - right. destruct (proj1 (has_bearer_shape _) H) as (scheme & rest & H1 & H2).
    exists scheme, rest. repeat split; try assumption.
    exact (run_check_call scheme rest H1 H2 C).
  - left. repeat split. now apply run_check_misconfigured.
Qed.

End Gate.

Section Broker.

Import token_broker_sidecar.
Variables (environ : gmap string string) (req : Request) (net : network).

Lemma run_broker_refused :
  has_bearer req = false -> run net 0 (broker environ req) = (Returned DENY, []).
Proof.
  intros H. unfold broker. fold (authorization_of req). fold (has_bearer req).
  rewrite H. reflexivity.
Qed.

Lemma run_broker_misconfigured :
  has_bearer req = true -> configured environ broker_keys = false ->
  run net 0 (broker environ req) = (Returned MISCONFIGURED, []).
Proof.
  intros H C. destruct (proj1 (has_bearer_shape _) H) as (scheme & rest & H1 & H2).
  unfold broker. fold (authorization_of req). fold (has_bearer req). rewrite H.
  cbn [negb]. unfold authorization_of. rewrite (getitem_split _ _ _ H1 H2).
  rewrite configured_broker in C. step. rewrite C. reflexivity.
Qed.

(** With a Bearer header and a full configuration the broker calls
    realm A with the stripped token, and realm B only with the token
    that realm A yields. *)
Lemma run_broker_call scheme rest :
  authorization_of req = scheme +:+ String " " rest ->
  Py.lower scheme = "bearer" ->
  configured environ broker_keys = true ->
  run net 0 (broker environ req) = broker_run environ net (Py.strip rest).
Proof.
  intros H1 H2 C.
  assert (H : has_bearer req = true).
  { apply has_bearer_shape. now exists scheme, rest. }
  unfold broker. fold (authorization_of req). fold (has_bearer req). rewrite H.
  cbn [negb]. unfold authorization_of. rewrite (getitem_split _ _ _ H1 H2).
  rewrite configured_broker in C. step. rewrite C. step.
  unfold broker_run, hop_a_request, hop_token.
  destruct (net 0%nat _) as [[st js]|e]; step; [|reflexivity].
  destruct (500 <=? st); [reflexivity |].
  unfold access_token at 1. step.
  destruct js as [body|]; [|reflexivity].
  destruct body as [| | | | |l|items]; step; try reflexivity.
  destruct (items_get items "access_token") as [tok|]; step; [|reflexivity].
  destruct (truthy tok); step; [|reflexivity].
  unfold hop_b_request.
  destruct (net 1%nat _) as [[st' js']|e']; step; [|reflexivity].
  destruct (500 <=? st'); [reflexivity |].
  unfold access_token. step.
  destruct js' as [body'|]; [|reflexivity].
  destruct body' as [| | | | |l'|items']; step; try reflexivity.
  destruct (items_get items' "access_token") as [tok'|]; step; [|reflexivity].
  destruct (truthy tok'); step; [|reflexivity].
  fold (bearer_headers tok'). rewrite run_Response_. reflexivity.
Qed.

(** Every run of the broker. *)
Lemma run_broker_cases :
  (has_bearer req = false /\ run net 0 (broker environ req) = (Returned DENY, []))
  \/ (has_bearer req = true /\ configured environ broker_keys = false
      /\ run net 0 (broker environ req) = (Returned MISCONFIGURED, []))
  \/ (exists scheme rest,
        authorization_of req = scheme +:+ String " " rest
        /\ Py.lower scheme = "bearer"
        /\ configured environ broker_keys = true
        /\ run net 0 (broker environ req) = broker_run environ net (Py.strip rest)).
Proof.
  destruct (has_bearer req) eqn:H;
    [|left; split; [reflexivity | now apply run_broker_refused]].
  right. destruct (configured environ broker_keys) eqn:C.
  - right. destruct (proj1 (has_bearer_shape _) H) as (scheme & rest & H1 & H2).
    exists scheme, rest. repeat split; try assumption.
    exact (run_broker_call scheme rest H1 H2 C).
  - left. repeat split. now apply run_broker_misconfigured.
Qed.

End Broker.

(** The calls of a broker run, whatever the replies. *)
Lemma broker_run_calls environ net incoming res (calls : list (httpx.request * reply)) :
  broker_run environ net incoming = (res, calls) ->
  let rq_a := hop_a_request environ incoming in
  calls !! 0%nat = Some (rq_a, net 0%nat rq_a)
  /\ match hop_token (net 0%nat rq_a) with
     | None => res = Returned DENY /\ calls = [(rq_a, net 0%nat rq_a)]
     | Some jwt_for_b =>
         let rq_b := hop_b_request environ jwt_for_b in
         calls = [(rq_a, net 0%nat rq_a); (rq_b, net 1%nat rq_b)]
         /\ match hop_token (net 1%nat rq_b) with
            | None => res = Returned DENY
            | Some final_token => res = finish (Response_ "" 200 (bearer_headers final_token))
            end
     end.
Proof.
  unfold broker_run. intros H. cbv zeta in *.
  destruct (hop_token (net 0%nat (hop_a_request environ incoming))) as [jwt|].
  - destruct (hop_token (net 1%nat (hop_b_request environ jwt))) as [tok|];
      apply pair_equal_spec in H as [<- <-]; repeat split.
  - apply pair_equal_spec in H as [<- <-]. repeat split.
Qed.

Lemma refusal_denies r : refusal r = true -> gate_answer r = Returned DENY.
Proof.
  destruct r as [[st js]|e]; [|reflexivity]. unfold refusal, gate_answer. cbn.
  destruct (500 <=? st); [reflexivity |]. cbn.
  destruct js as [body|]; [|reflexivity].
  destruct body as [| | | | |l|items]; try discriminate.
  now intros ->%negb_true_iff.
Qed.

(** [hop_token] is [None] on exactly the failures of a hop: an exception
    of the call, a status of 500 or more, a body that does not decode, a
    body without a truthy [access_token]. *)
Lemma hop_token_None r :
  hop_token r = None <->
  (exists e, r = Failed e)
  \/ (exists resp, r = Replied resp
      /\ (500 <= httpx.status_code resp \/ httpx.json resp = None
          \/ access_token resp = None)).
Proof.
  destruct r as [resp|e]; cbn.
  - destruct (Z.leb_spec 500 (httpx.status_code resp)) as [Hs|Hs].
    + split; [|reflexivity]. intros _. right. exists resp. auto.
    + split.
      * intros H. right. exists resp. auto.
      * intros [[e He] | (resp' & [= <-] & [H | [H | H]])]; [discriminate | lia | | exact H].
        unfold access_token. now rewrite H.
  - split; [|reflexivity]. intros _. left. now exists e.
Qed.

(** The DENY response shows no text at all. *)
Lemma DENY_shows_nothing text : nonempty text = true -> shows text DENY = false.
Proof.
  intros H. unfold shows, DENY, PlainTextResponse. cbn [content headers_out].
  rewrite (contains_empty _ H), map_to_list_empty. reflexivity.
Qed.

Lemma json_field_items resp key v :
  json_field resp key = Some v ->
  exists items, httpx.json resp = Some (PDict items) /\ items_get items key = Some v.
Proof.
  unfold json_field. destruct (httpx.json resp) as [[]|]; try discriminate.
  intros H. eauto.
Qed.

Lemma hop_token_truthy r tok : hop_token r = Some tok -> truthy tok = true.
Proof.
  destruct r as [resp|e]; [|discriminate]. cbn.
  destruct (500 <=? httpx.status_code resp); [discriminate |].
  unfold access_token. destruct (httpx.json resp) as [[]|]; try discriminate.
  destruct (items_get items "access_token") as [t|]; [|discriminate].
  destruct (truthy t) eqn:E; [|discriminate]. now intros [= <-].
Qed.

Lemma hop_token_field resp s :
  httpx.status_code resp < 500 ->
  json_field resp "access_token" = Some (PStr s) -> nonempty s = true ->
  hop_token (Replied resp) = Some (PStr s).
Proof.
  intros Hst (items & Hj & Hi)%json_field_items Hs. cbn.
  rewrite (proj2 (Z.leb_gt _ _) Hst). unfold access_token. rewrite Hj, Hi.
  cbn [truthy]. unfold nonempty in Hs. now rewrite Hs.
Qed.

(** The trace of a broker run that reaches realm B. *)
Lemma broker_two_calls environ req net res (calls : list (httpx.request * reply)) c1 :
  run net 0 (token_broker_sidecar.broker environ req) = (res, calls) ->
  calls !! 1%nat = Some c1 ->
  exists incoming jwt_for_b,
    let rq_a := hop_a_request environ incoming in
    let rq_b := hop_b_request environ jwt_for_b in
    hop_token (net 0%nat rq_a) = Some jwt_for_b
    /\ calls = [(rq_a, net 0%nat rq_a); (rq_b, net 1%nat rq_b)]
    /\ match hop_token (net 1%nat rq_b) with
       | None => res = Returned DENY
       | Some final_token => res = finish (Response_ "" 200 (bearer_headers final_token))
       end.
Proof.
  intros Hrun H1.
  destruct (run_broker_cases environ req net)
    as [(H & E) | [(H & C & E) | (scheme & rest' & Ha & Hb & C & E)]];
    rewrite E in Hrun; try (apply pair_equal_spec in Hrun as [_ <-]; discriminate).
  apply broker_run_calls in Hrun as [_ Hrun]. exists (Py.strip rest').
  destruct (hop_token (net 0%nat (hop_a_request environ (Py.strip rest'))))
    as [jwt|] eqn:Hj.
  - exists jwt. cbv zeta in *. destruct Hrun as [Hc Hres].
    split; [exact Hj |]. split; assumption.
  - destruct Hrun as [_ ->]. discriminate.
Qed.

(** A decoded body that is not an object makes the gate raise: the
    handler has no answer of its own, neither ALLOW nor DENY. *)
Lemma gate_raises_on_non_object resp body :
  httpx.status_code resp < 500 ->
  httpx.json resp = Some body ->
  (forall items, body <> PDict items) ->
  gate_answer (Replied resp) = Raised AttributeError.
Proof.
  intros Hst Hj Hb. unfold gate_answer. rewrite (proj2 (Z.leb_gt _ _) Hst), Hj.
  destruct body; try reflexivity. now destruct (Hb items).
Qed.

(** ** [strip] *)

Lemma all_space_cons c s : all_space (String c s) = Py.isspace c && all_space s.
Proof. reflexivity. Qed.

Lemma lstrip_spec s :
  exists l, s = l +:+ Py.lstrip s /\ all_space l = true
            /\ forall c t, Py.lstrip s = String c t -> Py.isspace c = false.
Proof.
  induction s as [|c s (l & E & Hl & Hf)].
  - exists ""%string. repeat split. discriminate.
  - cbn [Py.lstrip]. destruct (Py.isspace c) eqn:Hc.
    + exists (String c l). rewrite append_cons, <- E, all_space_cons, Hc, Hl.
      now repeat split.
    + exists ""%string. repeat split. now intros c' t [= <- _].
Qed.

Lemma rstrip_by_spec p s :
  exists r, s = Py.rstrip_by p s +:+ r
            /\ forallb p (list_ascii_of_string r) = true
            /\ forall t c, Py.rstrip_by p s = t +:+ String c "" -> p c = false.
Proof.
  induction s as [|c s (r & E & Hr & Hf)].
  - exists ""%string. repeat split. intros [|? ?] c; discriminate.
  - cbn [Py.rstrip_by]. destruct (Py.rstrip_by p s) as [|d u] eqn:Hu.
    + destruct (p c) eqn:Hc.
      * exists (String c r). cbn in E. subst s. cbn [list_ascii_of_string forallb].
        now rewrite Hc, Hr; repeat split; intros [|? ?] ?; discriminate.
      * exists r. cbn in E. subst s. repeat split; [exact Hr |].
        intros [|? [|? ?]] c'; cbn; intros [=]; now subst.
    + exists r. rewrite append_cons, <- E. repeat split; [exact Hr |].
      intros [|e t] c'.
      * cbn. intros [=].
      * rewrite append_cons. intros [= <- Ht]. now apply (Hf t).
Qed.

(** [strip] removes whitespace at both ends, and nothing else. *)
Lemma strip_spec s :
  exists l r,
    s = l +:+ Py.strip s +:+ r /\ all_space l = true /\ all_space r = true
    /\ (forall c t, Py.strip s = String c t -> Py.isspace c = false)
    /\ (forall t c, Py.strip s = t +:+ String c "" -> Py.isspace c = false).
Proof.
  destruct (lstrip_spec s) as (l & El & Hl & Hfl).
  destruct (rstrip_by_spec Py.isspace (Py.lstrip s)) as (r & Er & Hr & Hfr).
  exists l, r. unfold Py.strip. repeat split; try assumption.
  - now rewrite <- Er.
  - intros c t Hs. rewrite Hs in Er. rewrite append_cons in Er. now apply (Hfl c _ Er).
Qed.

(** ** Base64 against its bit-level description *)

Lemma list_ind3 {A : Type} (P : list A -> Prop) :
  P [] -> (forall a, P [a]) -> (forall a b, P [a; b]) ->
  (forall a b c l, P l -> P (a :: b :: c :: l)) ->
  forall l, P l.
Proof.
  intros H0 H1 H2 H3 l.
  assert (H : P l /\ (forall a, P (a :: l)) /\ (forall a b, P (a :: b :: l))).
  { induction l as [|x l (IH0 & IH1 & IH2)]; [now repeat split |].
    split; [apply IH1 |]. split; [intros a; apply IH2 |].
    intros a b. now apply H3. }
  apply H.
Qed.

Lemma list_ind6 {A : Type} (P : list A -> Prop) :
  (forall l, (length l < 6)%nat -> P l) ->
  (forall a b c d e f l, P l -> P (a :: b :: c :: d :: e :: f :: l)) ->
  forall l, P l.
Proof.
  intros Hs Hc l. remember (length l) as n eqn:Hn. revert l Hn.
  induction n as [n IH] using lt_wf_ind. intros l Hn.
  destruct l as [|a [|b [|c [|d [|e [|f l]]]]]];
    try (apply Hs; simpl; lia).
  apply Hc. apply (IH (length l)); [subst n; simpl; lia | reflexivity].
Qed.

(** The shifts and masks of the encoder, read as bit fields of a byte. *)
Lemma byte_fields x :
  let a := Z_of_byte x in
  Z.shiftr a 2 = bits_value [bit x 7; bit x 6; bit x 5; bit x 4; bit x 3; bit x 2]
  /\ Z.land a 3 = bits_value [bit x 1; bit x 0]
  /\ Z.shiftr a 4 = bits_value [bit x 7; bit x 6; bit x 5; bit x 4]
  /\ Z.land a 15 = bits_value [bit x 3; bit x 2; bit x 1; bit x 0]
  /\ Z.shiftr a 6 = bits_value [bit x 7; bit x 6]
  /\ Z.land a 63 = bits_value [bit x 5; bit x 4; bit x 3; bit x 2; bit x 1; bit x 0].
Proof. destruct x; vm_compute; repeat split. Qed.

(** The URL-safe table holds the digits of the specification. *)
Lemma digit_of_bits (b5 b4 b3 b2 b1 b0 : bool) :
  let v := bits_value [b5; b4; b3; b2; b1; b0] in
  ascii_of_byte (base64.digit base64.urlsafe_alphabet v) = base64url_digit v
  /\ is_base64url_char (base64url_digit v) = true.
Proof. destruct b5, b4, b3, b2, b1, b0; vm_compute; split; reflexivity. Qed.

Lemma join_2_4 (p q r s t u : bool) :
  Z.lor (Z.shiftl (bits_value [p; q]) 4) (bits_value [r; s; t; u])
  = bits_value [p; q; r; s; t; u].
Proof. destruct p, q, r, s, t, u; reflexivity. Qed.

Lemma join_4_2 (p q r s t u : bool) :
  Z.lor (Z.shiftl (bits_value [p; q; r; s]) 2) (bits_value [t; u])
  = bits_value [p; q; r; s; t; u].
Proof. destruct p, q, r, s, t, u; reflexivity. Qed.

Lemma shift_2 (p q : bool) :
  Z.shiftl (bits_value [p; q]) 4 = bits_value [p; q; false; false; false; false].
Proof. destruct p, q; reflexivity. Qed.

Lemma shift_4 (p q r s : bool) :
  Z.shiftl (bits_value [p; q; r; s]) 2 = bits_value [p; q; r; s; false; false].
Proof. destruct p, q, r, s; reflexivity. Qed.

Ltac unfold_groups :=
  unfold base64.urlsafe_b64encode, unpadded_base64url, decode_ascii in *;
  cbn [base64.encode bits_of_bytes map app sextets firstn string_of_list_byte
       string_of_list_ascii List.map].

(** The encoder gives the unpadded text followed by [=] signs only. *)
Lemma encode_unpadded s :
  exists p,
    decode_ascii (base64.urlsafe_b64encode s) = unpadded_base64url s +:+ p
    /\ forallb (Ascii.eqb "=") (list_ascii_of_string p) = true.
Proof.
  induction s as [| a | a b | a b c s (p & IH & Hp)] using list_ind3.
  - exists ""%string. split; reflexivity.
  - exists "=="%string. split; [|reflexivity].
    destruct (byte_fields a) as (E1 & E2 & _). unfold_groups.
    rewrite E1, E2, shift_2.
    rewrite !(proj1 (digit_of_bits _ _ _ _ _ _)). reflexivity.
  - exists "="%string. split; [|reflexivity].
    destruct (byte_fields a) as (E1 & E2 & _).
    destruct (byte_fields b) as (_ & _ & F3 & F4 & _). unfold_groups.
    rewrite E1, E2, F3, F4, join_2_4, shift_4.
    rewrite !(proj1 (digit_of_bits _ _ _ _ _ _)). reflexivity.
  - exists p. split; [|exact Hp].
    destruct (byte_fields a) as (E1 & E2 & _).
    destruct (byte_fields b) as (_ & _ & F3 & F4 & _).
    destruct (byte_fields c) as (_ & _ & _ & _ & G5 & G6). unfold_groups.
    rewrite E1, E2, F3, F4, G5, G6, join_2_4, join_4_2.
    rewrite !(proj1 (digit_of_bits _ _ _ _ _ _)).
    rewrite !append_cons. do 4 f_equal. exact IH.
Qed.

Lemma sextets_cons6 (a b c d e f : bool) l :
  sextets (a :: b :: c :: d :: e :: f :: l) = bits_value [a; b; c; d; e; f] :: sextets l.
Proof. reflexivity. Qed.

Lemma sextets_digits bits :
  forallb (fun v => is_base64url_char (base64url_digit v)) (sextets bits) = true.
Proof.
  induction bits as [l Hl | a b c d e f l IH] using list_ind6.
  - destruct l as [|a [|b [|c [|d [|e [|f l]]]]]];
      try (simpl in Hl; lia); try reflexivity;
      cbn [sextets app firstn forallb]; rewrite andb_true_r.
    + apply (digit_of_bits a false false false false false).
    + apply (digit_of_bits a b false false false false).
    + apply (digit_of_bits a b c false false false).
    + apply (digit_of_bits a b c d false false).
    + apply (digit_of_bits a b c d e false).
  - rewrite sextets_cons6. cbn [forallb]. rewrite IH, andb_true_r.
    apply (digit_of_bits a b c d e f).
Qed.

Lemma sextets_length bits : length (sextets bits) = ((length bits + 5) / 6)%nat.
Proof.
  induction bits as [l Hl | a b c d e f l IH] using list_ind6.
  - destruct l as [|a [|b [|c [|d [|e [|f l]]]]]]; try (simpl in Hl; lia); reflexivity.
  - rewrite sextets_cons6. cbn [length]. rewrite IH.
    replace (S (S (S (S (S (S (length l)))))) + 5)%nat
      with (1 * 6 + (length l + 5))%nat by lia.
    rewrite Nat.div_add_l by lia. lia.
Qed.

Lemma bits_of_bytes_length s : length (bits_of_bytes s) = (8 * length s)%nat.
Proof.
  induction s as [|b s IH]; [reflexivity |].
  cbn [bits_of_bytes map app length]. lia.
Qed.

Lemma string_of_list_ascii_length l : String.length (string_of_list_ascii l) = length l.
Proof. induction l as [|c l IH]; [reflexivity |]. cbn. now rewrite IH. Qed.

Lemma unpadded_length s :
  String.length (unpadded_base64url s) = ((8 * length s + 5) / 6)%nat.
Proof.
  unfold unpadded_base64url.
  now rewrite string_of_list_ascii_length, length_map, sextets_length, bits_of_bytes_length.
Qed.

Lemma unpadded_charset s :
  forallb is_base64url_char (list_ascii_of_string (unpadded_base64url s)) = true.
Proof.
  unfold unpadded_base64url. rewrite list_ascii_of_string_of_list_ascii.
  rewrite forallb_map_comp. apply sextets_digits.
Qed.

Lemma base64url_char_not_pad c :
  is_base64url_char c = true -> negb (Ascii.eqb "=" c) = true.
Proof. destruct c as [[] [] [] [] [] [] [] []]; vm_compute; congruence. Qed.

(** What [get_token.py] computes, [urlsafe_b64encode(...).decode().rstrip('=')],
    is the unpadded base64url encoding. *)
Lemma rstrip_urlsafe_b64encode s :
  Py.rstrip (decode_ascii (base64.urlsafe_b64encode s)) "=" = unpadded_base64url s.
Proof.
  destruct (encode_unpadded s) as (p & -> & Hp). unfold Py.rstrip.
  apply rstrip_by_app; [|exact Hp].
  apply (forallb_impl is_base64url_char);
    [apply base64url_char_not_pad | apply unpadded_charset].
Qed.

(** The encoding loses nothing: a digit gives back its six bits. *)
Lemma digit_bits_digit (a b c d e f : bool) :
  digit_bits (base64url_digit (bits_value [a; b; c; d; e; f])) = [a; b; c; d; e; f].
Proof. destruct a, b, c, d, e, f; vm_compute; reflexivity. Qed.

Lemma digit_inj (a b c d e f a' b' c' d' e' f' : bool) :
  base64url_digit (bits_value [a; b; c; d; e; f])
  = base64url_digit (bits_value [a'; b'; c'; d'; e'; f']) ->
  [a; b; c; d; e; f] = [a'; b'; c'; d'; e'; f'].
Proof. intros H. apply (f_equal digit_bits) in H. now rewrite !digit_bits_digit in H. Qed.

Lemma byte_of_bits x y :
  map (bit x) [7; 6; 5; 4; 3; 2; 1; 0] = map (bit y) [7; 6; 5; 4; 3; 2; 1; 0] -> x = y.
Proof.
  intros H.
  assert (E : forall z, Z_of_byte z = bits_value (map (bit z) [7; 6; 5; 4; 3; 2; 1; 0])).
  { intros z. destruct z; vm_compute; reflexivity. }
  assert (Hz : Z_of_byte x = Z_of_byte y) by (now rewrite (E x), (E y), H).
  unfold Z_of_byte in Hz. apply N2Z.inj in Hz.
  assert (Hs : Some x = Some y) by (now rewrite <- (Byte.of_to_N x), Hz, Byte.of_to_N).
  now injection Hs.
Qed.

Lemma bits_of_bytes_inj s1 s2 :
  bits_of_bytes s1 = bits_of_bytes s2 -> s1 = s2.
Proof.
  revert s2. induction s1 as [|x s1 IH]; intros [|y s2]; try discriminate; [reflexivity |].
  intros H.
  change (map (bit x) [7; 6; 5; 4; 3; 2; 1; 0] ++ bits_of_bytes s1
          = map (bit y) [7; 6; 5; 4; 3; 2; 1; 0] ++ bits_of_bytes s2) in H.
  apply app_inj_1 in H as [Hx Hs]; [|reflexivity].
  f_equal; [now apply byte_of_bits | now apply IH].
Qed.

Lemma sextets_inj b1 b2 :
  length b1 = length b2 ->
  map base64url_digit (sextets b1) = map base64url_digit (sextets b2) -> b1 = b2.
Proof.
  revert b2. induction b1 as [l Hl | a b c d e f l IH] using list_ind6; intros b2 Hlen H.
  - destruct l as [|a [|b [|c [|d [|e [|f l]]]]]]; try (simpl in Hl; lia);
      destruct b2 as [|a' [|b' [|c' [|d' [|e' [|f' l']]]]]]; try discriminate Hlen;
      try reflexivity;
      cbn [sextets app firstn map] in H; injection H as H; apply digit_inj in H;
      congruence.
  - destruct b2 as [|a' [|b' [|c' [|d' [|e' [|f' l']]]]]]; try discriminate Hlen.
    rewrite !sextets_cons6 in H. cbn [map] in H. injection H as H Ht.
    apply digit_inj in H. injection H as -> -> -> -> -> ->.
    rewrite (IH l'); [reflexivity | simpl in Hlen; lia | exact Ht].
Qed.

Lemma string_of_list_ascii_inj l1 l2 :
  string_of_list_ascii l1 = string_of_list_ascii l2 -> l1 = l2.
Proof.
  intros H. apply (f_equal list_ascii_of_string) in H.
  now rewrite !list_ascii_of_string_of_list_ascii in H.
Qed.

(** Inputs of one length with the same encoding are the same. *)
Lemma unpadded_base64url_inj s1 s2 :
  length s1 = length s2 -> unpadded_base64url s1 = unpadded_base64url s2 -> s1 = s2.
Proof.
  intros Hlen H. unfold unpadded_base64url in H.
  apply string_of_list_ascii_inj, sextets_inj in H; [now apply bits_of_bytes_inj |].
  now rewrite !bits_of_bytes_length, Hlen.
Qed.

(** Test vectors: FIPS 180-4 for SHA-256, RFC 7617 for the Basic header. *)
Example sha256_constants :
  length hashlib.K = 64%nat
  /\ hashlib.K !! 0%nat = Some 0x428a2f98 /\ hashlib.K !! 63%nat = Some 0xc67178f2
  /\ hashlib.H0 !! 0%nat = Some 0x6a09e667 /\ hashlib.H0 !! 7%nat = Some 0x5be0cd19.
Proof. vm_compute. repeat split. Qed.

Example sha256_abc :
  map Z_of_byte (hashlib.sha256 (list_byte_of_string "abc"))
  = [0xba; 0x78; 0x16; 0xbf; 0x8f; 0x01; 0xcf; 0xea; 0x41; 0x41; 0x40; 0xde; 0x5d; 0xae;
     0x22; 0x23; 0xb0; 0x03; 0x61; 0xa3; 0x96; 0x17; 0x7a; 0x9c; 0xb4; 0x10; 0xff; 0x61;
     0xf2; 0x00; 0x15; 0xad].
Proof. vm_compute. reflexivity. Qed.

Example sha256_empty :
  map Z_of_byte (hashlib.sha256 [])
  = [0xe3; 0xb0; 0xc4; 0x42; 0x98; 0xfc; 0x1c; 0x14; 0x9a; 0xfb; 0xf4; 0xc8; 0x99; 0x6f;
     0xb9; 0x24; 0x27; 0xae; 0x41; 0xe4; 0x64; 0x9b; 0x93; 0x4c; 0xa4; 0x95; 0x99; 0x1b;
     0x78; 0x52; 0xb8; 0x55].
Proof. vm_compute. reflexivity. Qed.

Example basic_auth_aladdin :
  introspection_sidecar._basic_auth_header "Aladdin" "open sesame"
  = "Basic QWxhZGRpbjpvcGVuIHNlc2FtZQ=="%string.
Proof. vm_compute. reflexivity. Qed.

Example py_str_int : py_str (PInt 1999999999) = "1999999999"%string.
Proof. vm_compute. reflexivity. Qed.

Example py_str_nested :
  py_str (PList [PInt (-3); PStr "ab"; PDict [("k", PBool true)]; PNone])
  = "[-3, 'ab', {'k': True}, None]"%string.
Proof. vm_compute. reflexivity. Qed.

(** ** The authorization-code flow *)

Section Flow.

Import get_token.
Variable token_bytes : nat -> list byte.
Variable keycloak_token : token_call -> result PyVal.

Lemma do_GET_code q g c rest :
  q !! "code" = Some (c :: rest) ->
  do_GET q g = Returned (set_auth_code (Some c) g, Some (mkPage 200 success_html)).
Proof. intros H. unfold do_GET. now rewrite H. Qed.

(** [do_GET] reads [code], [error] and [error_description], never
    [state]. *)
Lemma do_GET_ignores_state q g st : do_GET (<["state" := st]> q) g = do_GET q g.
Proof. unfold do_GET. now rewrite !lookup_insert_ne. Qed.

Lemma do_GET_code_verifier q g g' p :
  do_GET q g = Returned (g', p) -> code_verifier g' = code_verifier g.
Proof.
  unfold do_GET. intros H.
  repeat match type of H with
         | match ?x with _ => _ end = _ => destruct x
         end; injection H as <- _ || discriminate H; reflexivity.
Qed.

Lemma wait_ignores_state t q st n i g :
  wait (Some (t, <["state" := st]> q)) n i g = wait (Some (t, q)) n i g.
Proof.
  revert i g. induction n as [|n IH]; intros i g; [reflexivity |].
  cbn [wait]. unfold sleep. rewrite do_GET_ignores_state.
  destruct (Nat.eqb t i); [destruct (do_GET q g) as [[g' ?]|]|];
    (destruct (has_code _); [reflexivity | apply IH]).
Qed.

Lemma login_flow_ignores_state t q st g :
  login_flow token_bytes (Some (t, <["state" := st]> q)) keycloak_token g
  = login_flow token_bytes (Some (t, q)) keycloak_token g.
Proof.
  unfold login_flow. destruct (pkce token_bytes) as [verifier challenge].
  now rewrite wait_ignores_state.
Qed.

(** A callback with a code, handled during the wait, ends the wait with
    that code stored. *)
Lemma wait_receives t q c rest n i g :
  q !! "code" = Some (c :: rest) -> nonempty c = true ->
  has_code g = false ->
  (i <= t < i + n)%nat ->
  wait (Some (t, q)) n i g = set_auth_code (Some c) g.
Proof.
  intros Hq Hc. revert i g. induction n as [|n IH]; intros i g Hg Ht; [lia |].
  cbn [wait]. unfold sleep. destruct (Nat.eqb_spec t i) as [->|Hne].
  - rewrite (do_GET_code _ _ _ _ Hq). unfold has_code. cbn. now rewrite Hc.
  - rewrite Hg. apply IH; [exact Hg | lia].
Qed.

Lemma wait_code_verifier callback n i g :
  code_verifier (wait callback n i g) = code_verifier g.
Proof.
  revert i g. induction n as [|n IH]; intros i g; [reflexivity |].
  cbn [wait].
  assert (Hs : code_verifier (sleep callback i g) = code_verifier g).
  { unfold sleep. destruct callback as [[t q]|]; [|reflexivity].
    destruct (Nat.eqb t i); [|reflexivity].
    destruct (do_GET q g) as [[g' p]|e] eqn:E; [|reflexivity].
    now apply (do_GET_code_verifier _ _ _ _ E). }
  destruct (has_code _); [exact Hs | now rewrite IH].
Qed.

(** Whatever happens later, the run keeps the verifier it generated and
    the URL it opened carries the challenge. *)
Lemma login_flow_pkce callback g :
  let r := login_flow token_bytes callback keycloak_token g in
  code_verifier (globals_after r) = Some (fst (pkce token_bytes))
  /\ opened r = auth_params (snd (pkce token_bytes)).
Proof.
  unfold login_flow. destruct (pkce token_bytes) as [verifier challenge]. cbn [fst snd].
  match goal with |- context [wait ?cb ?n ?i ?g0] =>
    pose proof (wait_code_verifier cb n i g0) as Hw; set (g1 := wait cb n i g0) in *
  end.
  cbn [code_verifier set_code_verifier] in Hw.
  destruct (has_code g1); cbn [negb]; [|now split].
  destruct (keycloak_token _) as [[]|e]; now split.
Qed.

End Flow.

(** * The properties of the specification *)

(** ** The admission gate *)

(** C1, as stated, fails: the introspection body [{"active": "false"}]
    has an [active] field that is not [true], and the gate answers 200.
    The gate tests the truth value of the field, and a non-empty text is
    truthy. *)
Lemma gate_allows_active_text :
  let '(res, calls) :=
    run (Sample.answering 200 Sample.active_as_text) 0
        (introspection_sidecar.check Sample.gate_environ (Sample.request "Bearer t")) in
  (exists rq r, In (rq, r) calls /\ refusal_as_stated r = true)
  /\ is_allow res = true /\ res <> Returned DENY.
Proof.
  vm_compute. split; [|split; [reflexivity | discriminate]].
  eexists _, _. split; [left; reflexivity | reflexivity].
Qed.

(** C1, amended: whenever the Authorization header is missing or does not
    use the Bearer scheme, or the introspection call raises, or its
    response has a status of 500 or more, or a body that is not JSON, or
    is an object whose [active] is missing or has the truth value False,
    the gate answers DENY, 401 with an empty body, and so not ALLOW. *)
Theorem gate_fail_closed environ req net res calls :
  run net 0 (introspection_sidecar.check environ req) = (res, calls) ->
  has_bearer req = false \/ (exists rq r, In (rq, r) calls /\ refusal r = true) ->
  res = Returned DENY /\ is_allow res = false
  /\ status_code DENY = 401 /\ content DENY = ""%string.
Proof.
  intros Hrun Hc.
  assert (res = Returned DENY) as ->; [|now repeat split].
  destruct (run_check_cases environ req net)
    as [(H & E) | [(H & C & E) | (scheme & rest & H1 & H2 & C & E)]];
    cbv zeta in E; rewrite E in Hrun; apply pair_equal_spec in Hrun as [<- <-].
  - reflexivity.
  - destruct Hc as [Hc | (rq & r & [] & _)]. congruence.
  - destruct Hc as [Hc | (rq & r & Hin & Hr)].
    + assert (has_bearer req = true) by (apply has_bearer_shape; eauto). congruence.
    + destruct Hin as [[= <- <-] | []]. now apply refusal_denies.
Qed.

(** An inactive token is denied. *)
Lemma gate_fail_closed_witness :
  fst (run (Sample.answering 200 Sample.inactive) 0
           (introspection_sidecar.check Sample.gate_environ (Sample.request "Bearer t")))
  = Returned DENY.
Proof.
  refine (proj1 (gate_fail_closed Sample.gate_environ (Sample.request "Bearer t")
                   (Sample.answering 200 Sample.inactive) _
                   (snd (run (Sample.answering 200 Sample.inactive) 0
                           (introspection_sidecar.check Sample.gate_environ
                              (Sample.request "Bearer t")))) _ _)).
  - symmetry. apply surjective_pairing.
  - right. vm_compute. eexists _, _. split; [left; reflexivity | reflexivity].
Defined.

(** C4, as stated, fails: introspection may return the body of the
    scenario with a status of 500 or more, and the gate then answers 401
    without reading the body. *)
Lemma gate_denies_alice_on_5xx :
  let '(res, calls) :=
    run (Sample.answering 503 Sample.alice) 0
        (introspection_sidecar.check Sample.gate_environ (Sample.request "Bearer t")) in
  has_bearer (Sample.request "Bearer t") = true
  /\ (exists rq resp,
        In (rq, Replied resp) calls
        /\ json_field resp "active" = Some (PBool true)
        /\ json_field resp "sub" = Some (PStr "alice")
        /\ json_field resp "scope" = Some (PStr "hello")
        /\ json_field resp "exp" = Some (PInt 1999999999))
  /\ res = Returned DENY /\ is_allow res = false.
Proof.
  vm_compute. split; [reflexivity |]. split; [|split; reflexivity].
  eexists _, _. split; [left; reflexivity |]. repeat split.
Qed.

(** C4, amended: for a request with a Bearer header, when introspection
    returns, with a status below 500, a JSON object with [active: true],
    [sub: "alice"], [scope: "hello"] and [exp: 1999999999], the gate
    answers 200 with X-Subject: alice, X-Scope: hello and
    X-Token-Exp: 1999999999, the values of those fields. *)
Theorem gate_allows_alice environ req net res calls rq resp :
  run net 0 (introspection_sidecar.check environ req) = (res, calls) ->
  has_bearer req = true ->
  In (rq, Replied resp) calls ->
  httpx.status_code resp < 500 ->
  json_field resp "active" = Some (PBool true) ->
  json_field resp "sub" = Some (PStr "alice") ->
  json_field resp "scope" = Some (PStr "hello") ->
  json_field resp "exp" = Some (PInt 1999999999) ->
  res = Returned (mkResponse 200 ""
                    (<["X-Subject" := "alice"]>
                     (<["X-Scope" := "hello"]>
                      (<["X-Token-Exp" := "1999999999"]> ∅))) None).
Proof.
  intros Hrun _ Hin Hst Ha Hsub Hscope Hexp.
  destruct (run_check_cases environ req net)
    as [(H & E) | [(H & C & E) | (scheme & rest & H1 & H2 & C & E)]];
    cbv zeta in E; rewrite E in Hrun; apply pair_equal_spec in Hrun as [<- <-];
    try (destruct Hin; fail).
  destruct Hin as [[= _ Hr] | []]. rewrite Hr.
  apply json_field_items in Ha as (items & Hj & Ha).
  apply json_field_items in Hsub as (items1 & Hj1 & Hsub).
  apply json_field_items in Hscope as (items2 & Hj2 & Hscope).
  apply json_field_items in Hexp as (items3 & Hj3 & Hexp).
  rewrite Hj in Hj1, Hj2, Hj3.
  injection Hj1 as <-. injection Hj2 as <-. injection Hj3 as <-.
  unfold gate_answer. rewrite (proj2 (Z.leb_gt _ _) Hst), Hj, Ha.
  cbn [default truthy]. unfold identity_headers. rewrite Hsub, Hscope, Hexp.
  vm_compute. reflexivity.
Qed.

(** End-to-end scenario 1. *)
Lemma gate_allows_alice_witness :
  fst (run (Sample.answering 200 Sample.alice) 0
           (introspection_sidecar.check Sample.gate_environ (Sample.request "Bearer t")))
  = Returned (mkResponse 200 ""
                (<["X-Subject" := "alice"]>
                 (<["X-Scope" := "hello"]>
                  (<["X-Token-Exp" := "1999999999"]> ∅))) None).
Proof.
  refine (gate_allows_alice Sample.gate_environ (Sample.request "Bearer t")
            (Sample.answering 200 Sample.alice) _
            (snd (run (Sample.answering 200 Sample.alice) 0
                    (introspection_sidecar.check Sample.gate_environ
                       (Sample.request "Bearer t"))))
            (introspection_request Sample.gate_environ "t")
            (httpx.Response 200 (Some Sample.alice)) _ _ _ _ _ _ _ _).
  - symmetry. apply surjective_pairing.
  - vm_compute. reflexivity.
  - vm_compute. left. reflexivity.
  - reflexivity.
  - reflexivity.
  - reflexivity.
  - reflexivity.
  - reflexivity.
Defined.

(** ** The broker *)

(** C2: with a Bearer header and a complete configuration, when the
    response of realm A holds no non-empty [access_token], the broker
    answers DENY and the call to realm A is the only call it makes. *)
Theorem broker_stops_without_hop_a_token environ req net res
    (calls rest : list (httpx.request * reply)) rq_a resp_a :
  run net 0 (token_broker_sidecar.broker environ req) = (res, calls) ->
  has_bearer req = true ->
  configured environ broker_keys = true ->
  calls = (rq_a, Replied resp_a) :: rest ->
  access_token resp_a = None ->
  res = Returned DENY /\ rest = []
  /\ httpx.url rq_a = token_broker_sidecar.KC_A_TOKEN_URL environ.
Proof.
  intros Hrun Hb Hc Hcalls Htok.
  destruct (run_broker_cases environ req net)
    as [(H & E) | [(H & C & E) | (scheme & rest' & H1 & H2 & C & E)]]; try congruence.
  rewrite E in Hrun. apply broker_run_calls in Hrun as [H0 Hrun].
  rewrite Hcalls in H0. cbn [lookup list_lookup] in H0. injection H0 as Hq Hr.
  rewrite <- Hr in Hrun. cbn [hop_token] in Hrun. rewrite Htok in Hrun.
  assert (res = Returned DENY
          /\ calls = [(hop_a_request environ (Py.strip rest'), Replied resp_a)])
    as [-> Hl] by (destruct (500 <=? httpx.status_code resp_a); exact Hrun).
  rewrite Hcalls in Hl. injection Hl as _ ->. rewrite Hq. repeat split.
Qed.

(** Realm A answers 200 with an empty object. *)
Lemma broker_stops_without_hop_a_token_witness :
  let net := Sample.two_hops (Sample.ok (PDict [])) (Sample.ok (Sample.token_body "finalTok")) in
  let r := run net 0 (token_broker_sidecar.broker Sample.broker_environ
                        (Sample.request "Bearer t")) in
  fst r = Returned DENY /\ length (snd r) = 1%nat.
Proof.
  intros net r.
  destruct (broker_stops_without_hop_a_token Sample.broker_environ
              (Sample.request "Bearer t") net (fst r) (snd r) []
              (hop_a_request Sample.broker_environ "t")
              (httpx.Response 200 (Some (PDict []))))
    as (Hres & _ & _).
  - apply surjective_pairing.
  - vm_compute. reflexivity.
  - vm_compute. reflexivity.
  - vm_compute. reflexivity.
  - reflexivity.
  - split; [exact Hres | vm_compute; reflexivity].
Defined.

(** C5: when realm A answers below 500 with [access_token: "jwtA"] and
    realm B answers below 500 with [access_token: "finalTok"], the broker
    answers 200 with exactly the headers Authorization: Bearer finalTok
    and Cache-Control: no-store, and an empty body; the token of realm A
    is nowhere in that response. *)
Theorem broker_two_hops environ req net res (calls : list (httpx.request * reply))
    rq_a resp_a rq_b resp_b :
  run net 0 (token_broker_sidecar.broker environ req) = (res, calls) ->
  calls !! 0%nat = Some (rq_a, Replied resp_a) ->
  calls !! 1%nat = Some (rq_b, Replied resp_b) ->
  httpx.status_code resp_a < 500 ->
  httpx.status_code resp_b < 500 ->
  json_field resp_a "access_token" = Some (PStr "jwtA") ->
  json_field resp_b "access_token" = Some (PStr "finalTok") ->
  let allow := mkResponse 200 ""
                 (<["Authorization" := "Bearer finalTok"]>
                  (<["Cache-Control" := "no-store"]> ∅)) None in
  res = Returned allow /\ shows "jwtA" allow = false /\ shows "finalTok" allow = true.
Proof.
  intros Hrun H0 H1 Hsa Hsb Ha Hb allow.
  destruct (broker_two_calls _ _ _ _ _ _ Hrun H1) as (incoming & jwt & Hj & Hc & Hres).
  cbv zeta in *. rewrite Hc in H0, H1. cbn [lookup list_lookup] in H0, H1.
  injection H0 as _ H0. injection H1 as _ H1.
  rewrite H1, (hop_token_field _ _ Hsb Hb eq_refl) in Hres.
  split; [|split; vm_compute; reflexivity].
  rewrite Hres. vm_compute. reflexivity.
Qed.

(** End-to-end scenario 3. *)
Lemma broker_two_hops_witness :
  let net := Sample.two_hops (Sample.ok (Sample.token_body "jwtA"))
                             (Sample.ok (Sample.token_body "finalTok")) in
  fst (run net 0 (token_broker_sidecar.broker Sample.broker_environ
                    (Sample.request "Bearer t")))
  = Returned (mkResponse 200 ""
                (<["Authorization" := "Bearer finalTok"]>
                 (<["Cache-Control" := "no-store"]> ∅)) None).
Proof.
  intros net.
  refine (proj1 (broker_two_hops Sample.broker_environ (Sample.request "Bearer t") net _
                   (snd (run net 0 (token_broker_sidecar.broker Sample.broker_environ
                                      (Sample.request "Bearer t"))))
                   (hop_a_request Sample.broker_environ "t")
                   (httpx.Response 200 (Some (Sample.token_body "jwtA")))
                   (hop_b_request Sample.broker_environ (PStr "jwtA"))
                   (httpx.Response 200 (Some (Sample.token_body "finalTok")))
                   _ _ _ _ _ _ _)).
  - symmetry. apply surjective_pairing.
  - vm_compute. reflexivity.
  - vm_compute. reflexivity.
  - reflexivity.
  - reflexivity.
  - reflexivity.
  - reflexivity.
Defined.

(** C6: when realm A yields an [access_token] and the call to realm B
    raises, or answers with a status of 500 or more, a body that is not
    JSON, or no non-empty [access_token] (the cases of [hop_token_None]),
    the broker answers DENY; the token of realm A went to realm B as the
    assertion and is nowhere in the response to the caller, which shows
    no text at all. *)
Theorem broker_hides_hop_a_token environ req net res
    (calls : list (httpx.request * reply)) rq_a r_a rq_b r_b tok :
  run net 0 (token_broker_sidecar.broker environ req) = (res, calls) ->
  calls !! 0%nat = Some (rq_a, r_a) ->
  hop_token r_a = Some tok ->
  calls !! 1%nat = Some (rq_b, r_b) ->
  hop_token r_b = None ->
  res = Returned DENY
  /\ httpx.data rq_b !! "assertion" = Some tok
  /\ (forall jwt, tok = PStr jwt -> shows jwt DENY = false)
  /\ (forall text, nonempty text = true -> shows text DENY = false).
Proof.
  intros Hrun H0 Ha H1 Hb.
  destruct (broker_two_calls _ _ _ _ _ _ Hrun H1) as (incoming & jwt & Hj & Hc & Hres).
  cbv zeta in *. rewrite Hc in H0, H1. cbn [lookup list_lookup] in H0, H1.
  injection H0 as _ H0. injection H1 as Hq H1.
  rewrite H0, Ha in Hj. injection Hj as <-.
  rewrite H1, Hb in Hres. split; [exact Hres |]. split.
  - rewrite <- Hq. unfold hop_b_request, token_broker_sidecar.data_b. cbn [httpx.data].
    destruct (String.eqb _ _).
    + now rewrite lookup_insert_ne, lookup_insert_eq.
    + unfold token_broker_sidecar._client_auth_fields. rewrite String.eqb_refl.
      rewrite lookup_union_r by (now rewrite !lookup_insert_ne).
      now rewrite lookup_insert_ne, lookup_insert_eq.
  - split; [|apply DENY_shows_nothing].
    intros s ->. apply DENY_shows_nothing. apply (hop_token_truthy _ _ Ha).
Qed.

(** Realm B answers 503. *)
Lemma broker_hides_hop_a_token_witness :
  let net := Sample.two_hops (Sample.ok (Sample.token_body "jwtA"))
                             (Replied (httpx.Response 503 None)) in
  fst (run net 0 (token_broker_sidecar.broker Sample.broker_environ
                    (Sample.request "Bearer t")))
  = Returned DENY
  /\ shows "jwtA" DENY = false.
Proof.
  intros net.
  destruct (broker_hides_hop_a_token Sample.broker_environ (Sample.request "Bearer t") net
              (fst (run net 0 (token_broker_sidecar.broker Sample.broker_environ
                                 (Sample.request "Bearer t"))))
              (snd (run net 0 (token_broker_sidecar.broker Sample.broker_environ
                                 (Sample.request "Bearer t"))))
              (hop_a_request Sample.broker_environ "t")
              (Sample.ok (Sample.token_body "jwtA"))
              (hop_b_request Sample.broker_environ (PStr "jwtA"))
              (Replied (httpx.Response 503 None))
              (PStr "jwtA"))
    as (Hres & _ & Hshow & _).
  - apply surjective_pairing.
  - vm_compute. reflexivity.
  - reflexivity.
  - vm_compute. reflexivity.
  - reflexivity.
  - split; [exact Hres | now apply Hshow].
Defined.

(** C9: the request to realm B has one of two shapes, chosen by
    [KC_B_CLIENT_AUTH] alone. With [client_secret_basic] it has an
    Authorization header with Basic credentials and neither [client_id]
    nor [client_secret] in its form; with any other value it has both
    fields in the form and no Authorization header. Never both, never
    neither. *)
Theorem hop_b_client_authentication environ req net res
    (calls : list (httpx.request * reply)) rq_b r_b :
  run net 0 (token_broker_sidecar.broker environ req) = (res, calls) ->
  calls !! 1%nat = Some (rq_b, r_b) ->
  let id := token_broker_sidecar.KC_B_CLIENT_ID environ in
  let secret := token_broker_sidecar.KC_B_CLIENT_SECRET environ in
  let basic := token_broker_sidecar._basic_auth_header id secret in
  (if String.eqb (token_broker_sidecar.KC_B_CLIENT_AUTH environ) "client_secret_basic"
   then httpx.headers rq_b !! "Authorization" = Some basic
        /\ httpx.data rq_b !! "client_id" = None
        /\ httpx.data rq_b !! "client_secret" = None
   else httpx.headers rq_b !! "Authorization" = None
        /\ httpx.data rq_b !! "client_id" = Some (PStr id)
        /\ httpx.data rq_b !! "client_secret" = Some (PStr secret))
  /\ Py.startswith basic "Basic " = true
  /\ (is_Some (httpx.headers rq_b !! "Authorization")
      <-> httpx.data rq_b !! "client_id" = None
          /\ httpx.data rq_b !! "client_secret" = None).
Proof.
  intros Hrun H1 id secret basic.
  destruct (broker_two_calls _ _ _ _ _ _ Hrun H1) as (incoming & jwt & Hj & Hc & Hres).
  cbv zeta in *. rewrite Hc in H1. cbn [lookup list_lookup] in H1.
  injection H1 as <- _.
  unfold hop_b_request, token_broker_sidecar.headers_b, token_broker_sidecar.data_b.
  cbn [httpx.headers httpx.data]. fold id secret basic.
  assert (Hbasic : Py.startswith basic "Basic " = true).
  { apply startswith_app. eexists. reflexivity. }
  destruct (String.eqb _ _).
  - assert (H : (<["Authorization" := basic]>
                  (<["Content-Type" := "application/x-www-form-urlencoded"]> ∅)
                  : gmap string string) !! "Authorization" = Some basic
                /\ (<["grant_type" := PStr "urn:ietf:params:oauth:grant-type:jwt-bearer"]>
                    (<["assertion" := jwt]> ∅) : gmap string PyVal) !! "client_id" = None
                /\ (<["grant_type" := PStr "urn:ietf:params:oauth:grant-type:jwt-bearer"]>
                    (<["assertion" := jwt]> ∅) : gmap string PyVal) !! "client_secret"
                   = None).
    { split; [apply lookup_insert_eq | split; now rewrite !lookup_insert_ne]. }
    destruct H as (Hh & Hd1 & Hd2). repeat split; try assumption.
    rewrite Hh. eauto.
  - unfold token_broker_sidecar._client_auth_fields. rewrite String.eqb_refl.
    fold id secret.
    assert (H : (<["Content-Type" := "application/x-www-form-urlencoded"]> ∅
                  : gmap string string) !! "Authorization" = None).
    { now rewrite lookup_insert_ne. }
    assert (Hd1 : ((<["client_id" := PStr id]> (<["client_secret" := PStr secret]> ∅))
                   ∪ (<["grant_type" := PStr "urn:ietf:params:oauth:grant-type:jwt-bearer"]>
                      (<["assertion" := jwt]> ∅)) : gmap string PyVal) !! "client_id"
                  = Some (PStr id)).
    { apply lookup_union_Some_l. apply lookup_insert_eq. }
    assert (Hd2 : ((<["client_id" := PStr id]> (<["client_secret" := PStr secret]> ∅))
                   ∪ (<["grant_type" := PStr "urn:ietf:params:oauth:grant-type:jwt-bearer"]>
                      (<["assertion" := jwt]> ∅)) : gmap string PyVal) !! "client_secret"
                  = Some (PStr secret)).
    { apply lookup_union_Some_l. now rewrite lookup_insert_ne, lookup_insert_eq. }
    repeat split; try assumption.
    + rewrite H in *. now destruct H0.
    + rewrite H in *. now destruct H0.
    + rewrite Hd1. intros [? ?]. discriminate.
Qed.

(** The default configuration sends the Basic header; with
    [KC_B_CLIENT_AUTH=client_secret_post] the secret goes in the form. *)
Lemma hop_b_client_authentication_witness :
  let net := Sample.two_hops (Sample.ok (Sample.token_body "jwtA"))
                             (Sample.ok (Sample.token_body "finalTok")) in
  let rq_basic := hop_b_request Sample.broker_environ (PStr "jwtA") in
  let rq_post := hop_b_request Sample.broker_environ_post (PStr "jwtA") in
  (httpx.headers rq_basic !! "Authorization" = Some "Basic YnJva2VyLWI6c2VjcmV0LWI="%string
   /\ httpx.data rq_basic !! "client_secret" = None)
  /\ (httpx.headers rq_post !! "Authorization" = None
      /\ httpx.data rq_post !! "client_secret" = Some (PStr "secret-b")).
Proof.
  intros net rq_basic rq_post.
  pose proof (hop_b_client_authentication Sample.broker_environ
                (Sample.request "Bearer t") net
                (fst (run net 0 (token_broker_sidecar.broker Sample.broker_environ
                                   (Sample.request "Bearer t"))))
                (snd (run net 0 (token_broker_sidecar.broker Sample.broker_environ
                                   (Sample.request "Bearer t"))))
                rq_basic (Sample.ok (Sample.token_body "finalTok"))) as Hbasic.
  pose proof (hop_b_client_authentication Sample.broker_environ_post
                (Sample.request "Bearer t") net
                (fst (run net 0 (token_broker_sidecar.broker Sample.broker_environ_post
                                   (Sample.request "Bearer t"))))
                (snd (run net 0 (token_broker_sidecar.broker Sample.broker_environ_post
                                   (Sample.request "Bearer t"))))
                rq_post (Sample.ok (Sample.token_body "finalTok"))) as Hpost.
  split.
  - destruct Hbasic as [H _];
      [apply surjective_pairing | vm_compute; reflexivity |].
    assert (E : String.eqb (token_broker_sidecar.KC_B_CLIENT_AUTH Sample.broker_environ)
                           "client_secret_basic" = true) by (vm_compute; reflexivity).
    rewrite E in H. destruct H as (H1 & _ & H3). split; [|exact H3].
    rewrite H1. vm_compute. reflexivity.
  - destruct Hpost as [H _];
      [apply surjective_pairing | vm_compute; reflexivity |].
    assert (E : String.eqb (token_broker_sidecar.KC_B_CLIENT_AUTH Sample.broker_environ_post)
                           "client_secret_basic" = false) by (vm_compute; reflexivity).
    rewrite E in H. destruct H as (H1 & _ & H3). split; [exact H1 |].
    rewrite H3. vm_compute. reflexivity.
Defined.

(** ** Both handlers *)

(** C8: for a request with a Bearer header, when a required value of the
    configuration (the introspection URL, client id or client secret of
    the gate; either realm's token URL, client id or client secret of the
    broker) is missing, or empty, the handler answers 500 with the body
    [misconfigured] and makes no call; this is not the 401 of DENY. *)
Theorem misconfigured_is_500 (environ : gmap string string) req net k :
  has_bearer req = true ->
  environ !! k = None \/ environ !! k = Some ""%string ->
  (In k gate_keys ->
   run net 0 (introspection_sidecar.check environ req) = (Returned MISCONFIGURED, []))
  /\ (In k broker_keys ->
      run net 0 (token_broker_sidecar.broker environ req) = (Returned MISCONFIGURED, []))
  /\ status_code MISCONFIGURED = 500
  /\ content MISCONFIGURED = "misconfigured"%string
  /\ status_code DENY = 401
  /\ MISCONFIGURED <> DENY.
Proof.
  intros Hb Hk.
  assert (Hg : os.getenv environ k "" = ""%string).
  { unfold os.getenv. now destruct Hk as [-> | ->]. }
  repeat split; try discriminate.
  - intros Hin. apply run_check_misconfigured; [exact Hb | now apply (unconfigured _ _ k)].
  - intros Hin. apply run_broker_misconfigured; [exact Hb | now apply (unconfigured _ _ k)].
Qed.

(** The gate without its client secret, the broker without the token URL
    of realm B. *)
Lemma misconfigured_is_500_witness :
  run (Sample.answering 200 Sample.alice) 0
      (introspection_sidecar.check (delete "KC_CLIENT_SECRET" Sample.gate_environ)
         (Sample.request "Bearer t"))
  = (Returned MISCONFIGURED, [])
  /\ run (Sample.answering 200 Sample.alice) 0
         (token_broker_sidecar.broker (delete "KC_B_TOKEN_URL" Sample.broker_environ)
            (Sample.request "Bearer t"))
     = (Returned MISCONFIGURED, []).
Proof.
  assert (Hb : has_bearer (Sample.request "Bearer t") = true) by (vm_compute; reflexivity).
  assert (Hg : delete "KC_CLIENT_SECRET" Sample.gate_environ !! "KC_CLIENT_SECRET" = None)
    by (vm_compute; reflexivity).
  assert (Hk : delete "KC_B_TOKEN_URL" Sample.broker_environ !! "KC_B_TOKEN_URL" = None)
    by (vm_compute; reflexivity).
  split.
  - refine (proj1 (misconfigured_is_500 _ _ _ _ Hb (or_introl Hg)) _).
    right; right; left; reflexivity.
  - refine (proj1 (proj2 (misconfigured_is_500 _ _ _ _ Hb (or_introl Hk))) _).
    do 3 right; left; reflexivity.
Defined.

(** C10: a header made of [bearer] in any mix of cases, a space, and any
    text passes the header test of both handlers, and no other header
    does; the cut is at the first space of the header; the token sent to
    introspection ([token]) and to realm A ([subject_token]) is the text
    after that space without the whitespace at its two ends; when that
    text is only whitespace the header still passes and the token sent is
    empty. *)
Theorem bearer_scheme_any_case gate_environ broker_environ req net scheme rest :
  authorization_of req = scheme +:+ String " " rest ->
  Py.lower scheme = "bearer"%string ->
  configured gate_environ gate_keys = true ->
  configured broker_environ broker_keys = true ->
  has_bearer req = true
  /\ contains_char " " scheme = false
  /\ (exists rq r,
        snd (run net 0 (introspection_sidecar.check gate_environ req)) = [(rq, r)]
        /\ httpx.data rq !! "token" = Some (PStr (Py.strip rest)))
  /\ (exists rq r calls,
        snd (run net 0 (token_broker_sidecar.broker broker_environ req)) = (rq, r) :: calls
        /\ httpx.data rq !! "subject_token" = Some (PStr (Py.strip rest)))
  /\ (exists l r,
        rest = l +:+ Py.strip rest +:+ r /\ all_space l = true /\ all_space r = true
        /\ (forall c t, Py.strip rest = String c t -> Py.isspace c = false)
        /\ (forall t c, Py.strip rest = t +:+ String c "" -> Py.isspace c = false))
  /\ (all_space rest = true -> Py.strip rest = ""%string)
  /\ (forall req',
        has_bearer req' = true <->
        exists scheme' rest',
          authorization_of req' = scheme' +:+ String " " rest'
          /\ Py.lower scheme' = "bearer"%string).
Proof.
  intros H1 H2 Cg Cb. split; [apply has_bearer_shape; eauto |].
  split; [now apply (lower_no_space _ _ H2) |].
  split; [|split; [|split; [apply strip_spec |
                            split; [apply strip_all_space | apply has_bearer_shape]]]].
  - rewrite (run_check_call gate_environ req net scheme rest H1 H2 Cg).
    eexists _, _. split; [reflexivity |]. apply lookup_insert_eq.
  - rewrite (run_broker_call broker_environ req net scheme rest H1 H2 Cb).
    destruct (broker_run broker_environ net (Py.strip rest)) as [res calls] eqn:E.
    apply broker_run_calls in E as [E0 _]. cbv zeta in E0.
    destruct calls as [|[rq r] calls]; [discriminate |]. cbn in E0. injection E0 as -> _.
    exists (hop_a_request broker_environ (Py.strip rest)), r, calls. split; [reflexivity |].
    unfold hop_a_request, token_broker_sidecar.data_a. cbn [httpx.data].
    destruct (nonempty _); repeat (rewrite lookup_insert_ne by discriminate);
      apply lookup_insert_eq.
Qed.

(** [BEARER x] and [bearer x] pass; [bEaReR] followed by four spaces
    passes and sends the empty token to introspection. *)
Lemma bearer_scheme_any_case_witness :
  has_bearer (Sample.request "BEARER x") = true
  /\ has_bearer (Sample.request "bearer x") = true
  /\ (exists rq r,
        snd (run (Sample.answering 200 Sample.alice) 0
               (introspection_sidecar.check Sample.gate_environ
                  (Sample.request "bEaReR    "))) = [(rq, r)]
        /\ httpx.data rq !! "token" = Some (PStr "")).
Proof.
  split; [|split].
  - refine (proj1 (bearer_scheme_any_case Sample.gate_environ Sample.broker_environ
                     (Sample.request "BEARER x") (Sample.answering 200 Sample.alice)
                     "BEARER" "x" _ _ _ _)); vm_compute; reflexivity.
  - refine (proj1 (bearer_scheme_any_case Sample.gate_environ Sample.broker_environ
                     (Sample.request "bearer x") (Sample.answering 200 Sample.alice)
                     "bearer" "x" _ _ _ _)); vm_compute; reflexivity.
  - refine (proj1 (proj2 (proj2
              (bearer_scheme_any_case Sample.gate_environ Sample.broker_environ
                 (Sample.request "bEaReR    ") (Sample.answering 200 Sample.alice)
                 "bEaReR" "   " _ _ _ _)))); vm_compute; reflexivity.
Defined.

(** ** The authorization-code flow *)

(** C3, as stated, fails: the callback [code=ABC&state=forged] carries a
    [state] that is not the one sent, and the flow exchanges the code and
    returns True. *)
Lemma forged_state_is_exchanged :
  let r := get_token.login_flow Sample.zero_bytes (Some (0%nat, Sample.forged_callback))
             Sample.token_endpoint get_token.initial in
  get_token.auth_params "" !! "state" = Some state_sent
  /\ state_matches Sample.forged_callback = false
  /\ get_token.returned r = true
  /\ map get_token.code (get_token.token_calls r) = ["ABC"%string].
Proof. vm_compute. repeat split. Qed.

(** C3, amended: the callback's [state] is never read. A callback with a
    non-empty [code] that is handled during the wait is exchanged with
    that code and the verifier of the run, whatever [state] it carries:
    the run is the one of the same callback with any other [state], or
    with none; it returns True exactly when the token request yields an
    object. *)
Theorem callback_state_is_ignored token_bytes keycloak_token g t q st c rest :
  (t < 120)%nat ->
  q !! "code" = Some (c :: rest) ->
  nonempty c = true ->
  let r := get_token.login_flow token_bytes (Some (t, <["state" := st]> q))
             keycloak_token g in
  r = get_token.login_flow token_bytes (Some (t, q)) keycloak_token g
  /\ r = get_token.login_flow token_bytes (Some (t, delete "state" q)) keycloak_token g
  /\ exists call,
       get_token.token_calls r = [call] /\ get_token.code call = c
       /\ Some (get_token.call_code_verifier call)
          = get_token.code_verifier (get_token.globals_after r)
       /\ (get_token.returned r = true
           <-> exists items, keycloak_token call = Returned (PDict items)).
Proof.
  intros Ht Hq Hc r. split; [apply login_flow_ignores_state |].
  split.
  { subst r. rewrite login_flow_ignores_state.
    rewrite <- (login_flow_ignores_state _ _ t (delete "state" q) st).
    now rewrite insert_delete_eq, login_flow_ignores_state. }
  subst r. rewrite login_flow_ignores_state. unfold get_token.login_flow.
  destruct (get_token.pkce token_bytes) as [verifier challenge].
  rewrite (wait_receives t q c rest 120 0
             (get_token.set_code_verifier (Some verifier)
                (get_token.set_auth_code None g)) Hq Hc eq_refl) by lia.
  unfold get_token.has_code.
  cbn [get_token.auth_code get_token.set_auth_code]. rewrite Hc.
  cbn [negb default get_token.code_verifier get_token.set_code_verifier].
  match goal with |- context [keycloak_token ?x] => set (call := x) end.
  exists call.
  assert (Hv : Some (get_token.call_code_verifier call) = Some verifier) by reflexivity.
  destruct (keycloak_token call) as [v|e] eqn:E.
  - destruct v; cbn [get_token.token_calls get_token.returned get_token.globals_after];
      repeat split; try discriminate; try (intros [items [=]]); try exact Hv; eauto.
  - cbn [get_token.token_calls get_token.returned get_token.globals_after].
    repeat split; try discriminate; try (intros [items [=]]); exact Hv.
Qed.

(** The forged callback and the one with the [state] that was sent give
    the same run. *)
Lemma callback_state_is_ignored_witness :
  get_token.login_flow Sample.zero_bytes
    (Some (0%nat, <["state" := ["forged"]]> (<["code" := ["ABC"]]> ∅)))
    Sample.token_endpoint get_token.initial
  = get_token.login_flow Sample.zero_bytes
      (Some (0%nat, <["code" := ["ABC"]]> ∅))
      Sample.token_endpoint get_token.initial.
Proof.
  refine (proj1 (callback_state_is_ignored Sample.zero_bytes Sample.token_endpoint
                   get_token.initial 0 (<["code" := ["ABC"]]> ∅) ["forged"] "ABC" []
                   _ _ _)).
  - lia.
  - vm_compute. reflexivity.
  - reflexivity.
Defined.

(** C7: in every run of the flow the code challenge sent is the unpadded
    base64url encoding of the SHA-256 digest of the UTF-8 bytes of the
    verifier, the method sent is S256, and the verifier is the unpadded
    base64url encoding of the 32 bytes, 256 bits, drawn from
    [secrets.token_bytes]: 43 characters of the base64url alphabet, from
    which the 32 bytes can be read back. *)
Theorem pkce_pair (token_bytes : nat -> list byte) callback keycloak_token g :
  (forall n, length (token_bytes n) = n) ->
  let r := get_token.login_flow token_bytes callback keycloak_token g in
  exists verifier challenge,
    get_token.code_verifier (get_token.globals_after r) = Some verifier
    /\ get_token.opened r !! "code_challenge" = Some challenge
    /\ get_token.opened r !! "code_challenge_method" = Some "S256"%string
    /\ challenge = unpadded_base64url (hashlib.sha256 (encode_utf8 verifier))
    /\ verifier = unpadded_base64url (token_bytes 32%nat)
    /\ (8 * length (token_bytes 32%nat) = 256)%nat
    /\ String.length verifier = 43%nat
    /\ forallb is_base64url_char (list_ascii_of_string verifier) = true
    /\ (forall bytes,
          length bytes = 32%nat -> unpadded_base64url bytes = verifier ->
          bytes = token_bytes 32%nat).
Proof.
  intros Hlen r.
  destruct (login_flow_pkce token_bytes keycloak_token callback g) as [Hv Ho].
  fold r in Hv, Ho. unfold get_token.pkce in Hv, Ho. cbn [fst snd] in Hv, Ho.
  rewrite rstrip_urlsafe_b64encode in Hv. repeat rewrite rstrip_urlsafe_b64encode in Ho.
  eexists _, _. split; [exact Hv |]. rewrite Ho. unfold get_token.auth_params.
  split; [repeat (rewrite lookup_insert_ne by discriminate); apply lookup_insert_eq |].
  split; [repeat (rewrite lookup_insert_ne by discriminate); apply lookup_insert_eq |].
  split; [reflexivity |]. split; [reflexivity |].
  split; [now rewrite Hlen |].
  split; [now rewrite unpadded_length, Hlen |]. split; [apply unpadded_charset |].
  intros bytes Hb. apply unpadded_base64url_inj. now rewrite Hlen.
Qed.

(** With 32 zero bytes: the verifier is 43 times [A]. *)
Lemma pkce_pair_witness :
  exists verifier challenge,
    get_token.code_verifier
      (get_token.globals_after
         (get_token.login_flow Sample.zero_bytes None Sample.token_endpoint
            get_token.initial))
    = Some verifier
    /\ get_token.opened
         (get_token.login_flow Sample.zero_bytes None Sample.token_endpoint
            get_token.initial) !! "code_challenge" = Some challenge
    /\ verifier = "AAAAAAAAAAAAAAAAAAAAAAAAAAAAAAAAAAAAAAAAAAA"%string
    /\ challenge = "DwBzhbb51LfusnSGBa_hqYSgo7-j8BTQnip4TOnlzRo"%string.
Proof.
  destruct (pkce_pair Sample.zero_bytes None Sample.token_endpoint get_token.initial)
    as (verifier & challenge & Hv & Hc & _ & Hch & Hve & _).
  { intros n. apply repeat_length. }
  exists verifier, challenge. split; [exact Hv |]. split; [exact Hc |].
  subst challenge verifier. split; vm_compute; reflexivity.
Defined.

(** * Further properties of the code *)

(** ** The admission gate, every run *)

Lemma finish_Response_ content status (headers : gmap string PyVal) out :
  finish (Response_ content status headers) = Returned out ->
  all_str headers = true
  /\ out = mkResponse status content (omap header_value headers) None.
Proof.
  unfold Response_. destruct (all_str headers); cbn; [|discriminate].
  intros [= <-]. split; reflexivity.
Qed.


Lemma all_str_lookup (headers : gmap string PyVal) k v :
  all_str headers = true -> headers !! k = Some v -> exists s, v = PStr s.
Proof.
  unfold all_str. rewrite forallb_forall. intros H Hk.
  assert (Hin : In (k, v) (map_to_list headers)).
  { apply list_elem_of_In. now apply elem_of_map_to_list. }
  specialize (H _ Hin). apply bool_decide_eq_true in H. destruct H as [s Hs].
  destruct v; try discriminate. eauto.
Qed.


Lemma gate_answer_allow r :
  is_allow (gate_answer r) = true ->
  exists resp items,
    r = Replied resp /\ httpx.status_code resp < 500
    /\ httpx.json resp = Some (PDict items)
    /\ truthy (default (PBool false) (items_get items "active")) = true
    /\ gate_answer r = finish (Response_ "" 200 (identity_headers items)).
Proof.
  destruct r as [[st js]|e]; [|discriminate]. unfold gate_answer. cbn [httpx.status_code httpx.json].
  destruct (Z.leb_spec 500 st) as [Hs|Hs]; [discriminate |].
  destruct js as [body|]; [|discriminate].
  destruct body as [| | | | |l|items]; try discriminate.
  destruct (truthy _) eqn:Ha; [|discriminate].
  intros _. exists (httpx.Response st (Some (PDict items))), items. repeat split; assumption.
Qed.

Lemma identity_headers_names items k :
  is_Some (identity_headers items !! k)
  <-> k = "X-Subject"%string \/ k = "X-Scope"%string \/ k = "X-Token-Exp"%string.
Proof.
  unfold identity_headers. cbv zeta.
  rewrite !lookup_insert_is_Some, lookup_empty, is_Some_alt. intuition congruence.
Qed.

Lemma omap_header_value_is_Some (headers : gmap string PyVal) k :
  all_str headers = true ->
  is_Some (omap header_value headers !! k) <-> is_Some (headers !! k).
Proof.
  intros H. rewrite lookup_omap. destruct (headers !! k) as [v|] eqn:Hk; cbn.
  - destruct (all_str_lookup _ _ _ H Hk) as [s ->]. cbn. split; eauto.
  - split; intros [x Hx]; discriminate.
Qed.

(** X1: the gate answers 200 only to a request with a Bearer header, with
    the three values configured, after exactly one outbound call that was
    answered with a status below 500 and a JSON object whose [active] is
    truthy. The 200 response has an empty body and exactly the headers
    [X-Subject], [X-Scope] and [X-Token-Exp]: no other field of the
    introspection body, and not the token, is passed on. *)
Theorem gate_allows_only_after_active_introspection environ req net :
  let res := fst (run net 0 (introspection_sidecar.check environ req)) in
  let calls := snd (run net 0 (introspection_sidecar.check environ req)) in
  is_allow res = true ->
  has_bearer req = true
  /\ configured environ gate_keys = true
  /\ exists rq resp items out,
       calls = [(rq, Replied resp)]
       /\ httpx.status_code resp < 500
       /\ httpx.json resp = Some (PDict items)
       /\ truthy (default (PBool false) (items_get items "active")) = true
       /\ res = Returned out
       /\ status_code out = 200
       /\ content out = ""%string
       /\ forall k, is_Some (headers_out out !! k)
                    <-> k = "X-Subject"%string \/ k = "X-Scope"%string
                        \/ k = "X-Token-Exp"%string.
Proof.
  intros res calls Hallow. subst res calls.
  destruct (run_check_cases environ req net)
    as [(H & E) | [(H & C & E) | (scheme & rest & H1 & H2 & C & E)]];
    cbv zeta in E; rewrite E in *; cbn [fst snd] in *; try discriminate.
  split; [apply has_bearer_shape; eauto |]. split; [exact C |].
  destruct (gate_answer_allow _ Hallow) as (resp & items & Hr & Hst & Hj & Ha & Hg).
  rewrite Hg in *. rewrite Hr.
  destruct (finish (Response_ "" 200 (identity_headers items))) as [out|e] eqn:Hf;
    [|discriminate].
  apply finish_Response_ in Hf as [Hall ->].
  exists (introspection_request environ (Py.strip rest)), resp, items.
  eexists. repeat split.
  - assumption.
  - assumption.
  - assumption.
  - cbn [headers_out]. rewrite (omap_header_value_is_Some _ _ Hall).
    apply identity_headers_names.
  - cbn [headers_out]. rewrite (omap_header_value_is_Some _ _ Hall).
    apply identity_headers_names.
Qed.

(** Alice's token, introspected as active. *)
Lemma gate_allows_only_after_active_introspection_witness :
  is_allow (fst (run (Sample.answering 200 Sample.alice) 0
                   (introspection_sidecar.check Sample.gate_environ
                      (Sample.request "Bearer tok")))) = true
  /\ has_bearer (Sample.request "Bearer tok") = true
  /\ configured Sample.gate_environ gate_keys = true.
Proof.
  assert (H : is_allow (fst (run (Sample.answering 200 Sample.alice) 0
                               (introspection_sidecar.check Sample.gate_environ
                                  (Sample.request "Bearer tok")))) = true)
    by (vm_compute; reflexivity).
  destruct (gate_allows_only_after_active_introspection
              Sample.gate_environ (Sample.request "Bearer tok")
              (Sample.answering 200 Sample.alice) H) as (H1 & H2 & _).
  repeat split; assumption.
Defined.

(** The run of the gate, read from one of its calls. *)
Lemma gate_run_of_call environ req net res calls rq r :
  run net 0 (introspection_sidecar.check environ req) = (res, calls) ->
  In (rq, r) calls ->
  res = gate_answer r /\ calls = [(rq, r)] /\ r = net 0%nat rq
  /\ exists scheme rest,
       authorization_of req = scheme +:+ String " " rest
       /\ Py.lower scheme = "bearer"%string
       /\ rq = introspection_request environ (Py.strip rest).
Proof.
  intros Hrun Hin.
  destruct (run_check_cases environ req net)
    as [(H & E) | [(H & C & E) | (scheme & rest & H1 & H2 & C & E)]];
    cbv zeta in E; rewrite E in Hrun; apply pair_equal_spec in Hrun as [<- <-];
    try contradiction.
  destruct Hin as [Hin | []]. apply pair_equal_spec in Hin as [<- <-].
  repeat split. exists scheme, rest. now repeat split.
Qed.

(** X2: the gate makes no outbound call when the Bearer header is missing
    or a configuration value is empty, and one call otherwise, never more.
    That call goes to [KC_INTROSPECT_URL], carries the Basic header of the
    gate's own client and the form content type, and its form has the two
    fields [token], the stripped text after the scheme, and
    [token_type_hint = access_token]. *)
Theorem gate_calls_introspection_once environ req net :
  let calls := snd (run net 0 (introspection_sidecar.check environ req)) in
  (calls = [] <-> has_bearer req = false \/ configured environ gate_keys = false)
  /\ forall rq r, In (rq, r) calls ->
       calls = [(rq, r)]
       /\ r = net 0%nat rq
       /\ httpx.url rq = os.getenv environ "KC_INTROSPECT_URL" ""
       /\ httpx.headers rq
          = <["Authorization" :=
                introspection_sidecar._basic_auth_header
                  (os.getenv environ "KC_CLIENT_ID" "")
                  (os.getenv environ "KC_CLIENT_SECRET" "")]>
            (<["Content-Type" := "application/x-www-form-urlencoded"%string]> ∅)
       /\ exists scheme rest,
            authorization_of req = scheme +:+ String " " rest
            /\ Py.lower scheme = "bearer"%string
            /\ httpx.data rq
               = <["token" := PStr (Py.strip rest)]>
                 (<["token_type_hint" := PStr "access_token"]> ∅).
Proof.
  intros calls. split.
  - subst calls.
    destruct (run_check_cases environ req net)
      as [(H & E) | [(H & C & E) | (scheme & rest & H1 & H2 & C & E)]];
      cbv zeta in E; rewrite E; cbn [snd].
    + split; auto.
    + split; auto.
    + assert (Hb : has_bearer req = true) by (apply has_bearer_shape; eauto).
      split; [discriminate | intros [H | H]; congruence].
  - intros rq r Hin. subst calls.
    destruct (run net 0 (introspection_sidecar.check environ req)) as [res calls] eqn:Hrun.
    cbn [snd] in *.
    destruct (gate_run_of_call _ _ _ _ _ _ _ Hrun Hin)
      as (_ & Hc & Hr & scheme & rest & H1 & H2 & ->).
    repeat split; try assumption. exists scheme, rest. repeat split; assumption.
Qed.

Lemma text_or_falsy v dflt :
  truthy (default PNone v) = false -> text_or v dflt = dflt.
Proof.
  destruct v as [[]|]; try reflexivity. cbn. unfold nonempty. now intros ->.
Qed.

Lemma text_or_truthy v dflt s :
  truthy (default PNone v) = true -> default PNone v = PStr s -> text_or v dflt = s.
Proof.
  destruct v as [v|]; [|discriminate]. cbn. intros Ht ->. cbn in *.
  unfold nonempty. now rewrite Ht.
Qed.

Lemma py_or_text v dflt s :
  py_or (default PNone v) (PStr dflt) = PStr s -> s = text_or v dflt.
Proof.
  unfold py_or. destruct (truthy (default PNone v)) eqn:Ht; intros H.
  - symmetry. now apply text_or_truthy.
  - rewrite (text_or_falsy _ _ Ht). congruence.
Qed.

Lemma identity_subject items s :
  identity_headers items !! "X-Subject" = Some (PStr s) ->
  s = text_or (items_get items "sub") (text_or (items_get items "username") "").
Proof.
  unfold identity_headers. cbv zeta. rewrite lookup_insert_eq. intros [= H].
  destruct (truthy (default PNone (items_get items "sub"))) eqn:Ht.
  - symmetry. now apply text_or_truthy.
  - rewrite (text_or_falsy _ _ Ht). now apply py_or_text.
Qed.

Lemma identity_scope items s :
  identity_headers items !! "X-Scope" = Some (PStr s) ->
  s = text_or (items_get items "scope") "".
Proof.
  unfold identity_headers. cbv zeta.
  rewrite lookup_insert_ne by discriminate. rewrite lookup_insert_eq. intros [= H].
  now apply py_or_text.
Qed.

Lemma identity_exp items :
  identity_headers items !! "X-Token-Exp"
  = Some (PStr (match items_get items "exp" with
                | Some v => if truthy v then py_str v else ""
                | None => ""
                end)).
Proof.
  unfold identity_headers. cbv zeta.
  do 2 (rewrite lookup_insert_ne by discriminate). rewrite lookup_insert_eq.
  do 2 f_equal. unfold py_or. destruct (items_get items "exp") as [v|]; cbn [default from_option id].
  - destruct (truthy v); reflexivity.
  - reflexivity.
Qed.

(** X3: the values of the three headers of a 200 answer.
    [X-Subject] is [sub] when that is a non-empty text, else [username]
    when that is one, else empty; [X-Scope] is [scope] or empty;
    [X-Token-Exp] is [str(exp)], empty when [exp] is missing or falsy
    (so an [exp] of 0 gives an empty header). *)
Theorem gate_identity_headers environ req net out calls rq resp items :
  run net 0 (introspection_sidecar.check environ req) = (Returned out, calls) ->
  status_code out = 200 ->
  In (rq, Replied resp) calls ->
  httpx.json resp = Some (PDict items) ->
  headers_out out !! "X-Subject"
  = Some (text_or (items_get items "sub") (text_or (items_get items "username") ""))
  /\ headers_out out !! "X-Scope" = Some (text_or (items_get items "scope") "")
  /\ headers_out out !! "X-Token-Exp"
     = Some (match items_get items "exp" with
             | Some v => if truthy v then py_str v else ""
             | None => ""
             end).
Proof.
  intros Hrun Hst Hin Hj.
  destruct (gate_run_of_call _ _ _ _ _ _ _ Hrun Hin) as (Hres & _).
  assert (Hallow : is_allow (gate_answer (Replied resp)) = true).
  { rewrite <- Hres. cbn. now rewrite Hst. }
  destruct (gate_answer_allow _ Hallow) as (resp' & items' & [= <-] & _ & Hj' & _ & Hg).
  rewrite Hj in Hj'. injection Hj' as <-. rewrite Hg in Hres. symmetry in Hres.
  apply finish_Response_ in Hres as [Hall ->]. cbn [headers_out].
  assert (Hv : forall k s, identity_headers items !! k = Some (PStr s) ->
                           omap header_value (identity_headers items) !! k = Some s).
  { intros k s Hk. rewrite lookup_omap, Hk. reflexivity. }
  assert (Hs : forall k, is_Some (identity_headers items !! k) ->
                         exists s, identity_headers items !! k = Some (PStr s)).
  { intros k [v Hk]. destruct (all_str_lookup _ _ _ Hall Hk) as [s ->]. eauto. }
  split; [|split].
  - destruct (Hs "X-Subject"%string) as [s Hk]; [apply identity_headers_names; auto |].
    rewrite (Hv _ _ Hk). f_equal. now apply identity_subject.
  - destruct (Hs "X-Scope"%string) as [s Hk]; [apply identity_headers_names; auto |].
    rewrite (Hv _ _ Hk). f_equal. now apply identity_scope.
  - apply Hv, identity_exp.
Qed.

(** A body with [username] only: the subject is taken from it, the other
    two headers are empty. *)
Lemma gate_identity_headers_witness :
  let out := mkResponse 200 ""
               (<["X-Subject" := "bob"]> (<["X-Scope" := ""]> (<["X-Token-Exp" := ""]> ∅)))
               None in
  run (Sample.answering 200 Scenario.bob) 0
    (introspection_sidecar.check Sample.gate_environ (Sample.request "Bearer tok"))
  = (Returned out, [Scenario.gate_call Scenario.bob])
  /\ headers_out out !! "X-Subject" = Some "bob"%string
  /\ headers_out out !! "X-Scope" = Some ""%string
  /\ headers_out out !! "X-Token-Exp" = Some ""%string.
Proof.
  cbv zeta.
  assert (Hrun : run (Sample.answering 200 Scenario.bob) 0
                   (introspection_sidecar.check Sample.gate_environ
                      (Sample.request "Bearer tok"))
                 = (Returned (mkResponse 200 ""
                                (<["X-Subject" := "bob"]>
                                 (<["X-Scope" := ""]> (<["X-Token-Exp" := ""]> ∅))) None),
                    [Scenario.gate_call Scenario.bob]))
    by (vm_compute; reflexivity).
  split; [exact Hrun |].
  exact (gate_identity_headers _ _ _ _ _
           (introspection_request Sample.gate_environ "tok")
           (httpx.Response 200 (Some Scenario.bob))
           [("active", PBool true); ("username", PStr "bob")]
           Hrun eq_refl (or_introl eq_refl) eq_refl).
Defined.

Lemma gate_raises_of_call environ req net calls rq resp (res : result Response) :
  run net 0 (introspection_sidecar.check environ req) = (res, calls) ->
  In (rq, Replied resp) calls ->
  gate_answer (Replied resp) = Raised AttributeError ->
  res = Raised AttributeError.
Proof.
  intros Hrun Hin Hg.
  destruct (gate_run_of_call _ _ _ _ _ _ _ Hrun Hin) as (-> & _). exact Hg.
Qed.

(** X4: an introspection answer below 500 whose body decodes to something
    other than an object (a list, a text, [true], [null]) makes the
    handler raise [AttributeError]: [body.get] is called outside the two
    [try] blocks, so the gate gives no answer of its own, neither 200 nor
    401. *)
Theorem gate_raises_on_non_object_body environ req net res calls rq resp body :
  run net 0 (introspection_sidecar.check environ req) = (res, calls) ->
  In (rq, Replied resp) calls ->
  httpx.status_code resp < 500 ->
  httpx.json resp = Some body ->
  (forall items, body <> PDict items) ->
  res = Raised AttributeError.
Proof.
  intros Hrun Hin Hst Hj Hb.
  apply (gate_raises_of_call _ _ _ _ _ _ _ Hrun Hin).
  now apply (gate_raises_on_non_object resp body).
Qed.

(** The body [true]. *)
Lemma gate_raises_on_non_object_body_witness :
  fst (run (Sample.answering 200 (PBool true)) 0
         (introspection_sidecar.check Sample.gate_environ (Sample.request "Bearer tok")))
  = Raised AttributeError.
Proof.
  apply (gate_raises_on_non_object_body Sample.gate_environ (Sample.request "Bearer tok")
           (Sample.answering 200 (PBool true)) _
           [Scenario.gate_call (PBool true)]
           (introspection_request Sample.gate_environ "tok")
           (httpx.Response 200 (Some (PBool true))) (PBool true)).
  - vm_compute. reflexivity.
  - left. reflexivity.
  - reflexivity.
  - reflexivity.
  - discriminate.
Defined.



(** ** The broker, every run *)

Lemma hop_token_Some r tok :
  hop_token r = Some tok ->
  exists resp,
    r = Replied resp /\ httpx.status_code resp < 500
    /\ json_field resp "access_token" = Some tok /\ truthy tok = true.
Proof.
  intros H. pose proof (hop_token_truthy _ _ H) as Ht.
  destruct r as [resp|e]; [|discriminate]. cbn in H.
  destruct (Z.leb_spec 500 (httpx.status_code resp)) as [Hs|Hs]; [discriminate |].
  exists resp. repeat split; try assumption.
  unfold access_token in H. unfold json_field, field.
  destruct (httpx.json resp) as [[]|]; try discriminate.
  destruct (items_get items "access_token") as [t|]; [|discriminate].
  destruct (truthy t); [|discriminate]. congruence.
Qed.

Lemma bearer_headers_all_str tok : all_str (bearer_headers tok) = true.
Proof.
  unfold all_str, bearer_headers. apply forallb_forall. intros [k v] Hin.
  apply list_elem_of_In, elem_of_map_to_list in Hin. apply bool_decide_eq_true.
  apply lookup_insert_Some in Hin as [[_ <-] | [_ Hin]]; [cbn; eauto |].
  apply lookup_insert_Some in Hin as [[_ <-] | [_ Hin]]; [cbn; eauto |].
  now rewrite lookup_empty in Hin.
Qed.

Lemma finish_bearer tok :
  finish (Response_ "" 200 (bearer_headers tok))
  = Returned (mkResponse 200 ""
                (<["Authorization" := "Bearer " +:+ py_str tok]>
                 (<["Cache-Control" := "no-store"%string]> ∅)) None).
Proof.
  unfold Response_. rewrite bearer_headers_all_str. reflexivity.
Qed.

(** The keys of the form sent to realm B. *)
Lemma data_b_lookup environ jwt_for_b :
  let data := token_broker_sidecar.data_b environ jwt_for_b in
  data !! "grant_type" = Some (PStr "urn:ietf:params:oauth:grant-type:jwt-bearer")
  /\ data !! "assertion" = Some jwt_for_b
  /\ forall k, is_Some (data !! k) ->
       k = "grant_type"%string \/ k = "assertion"%string
       \/ k = "client_id"%string \/ k = "client_secret"%string.
Proof.
  assert (E : forall a b,
             token_broker_sidecar._client_auth_fields a b "client_secret_post"
             = <["client_id" := PStr a]> (<["client_secret" := PStr b]> ∅))
    by reflexivity.
  unfold token_broker_sidecar.data_b. rewrite E. cbv zeta.
  destruct (String.eqb _ "client_secret_basic").
  - do 2 (split; [reflexivity |]).
    intros k. rewrite !lookup_insert_is_Some, lookup_empty, is_Some_alt.
    intuition congruence.
  - split; [|split].
    + rewrite lookup_union_r; [reflexivity |]. reflexivity.
    + rewrite lookup_union_r; [reflexivity |]. reflexivity.
    + intros k [v Hk]. apply lookup_union_Some_raw in Hk as [Hk | [_ Hk]];
        assert (Hs : is_Some (Some v)) by eauto; rewrite <- Hk in Hs;
        rewrite !lookup_insert_is_Some, lookup_empty, is_Some_alt in Hs;
        intuition congruence.
Qed.

(** X6: the broker answers 200 only to a request with a Bearer header,
    with the six values configured, after exactly two outbound calls, both
    answered below 500 with an object that holds a truthy [access_token].
    The second call goes to [KC_B_TOKEN_URL] with the first token,
    unchanged, as [assertion]; the 200 response has an empty body and the
    two headers [Authorization: Bearer <str of the second token>] and
    [Cache-Control: no-store]. *)
Theorem broker_allows_only_after_two_hops environ req net :
  let res := fst (run net 0 (token_broker_sidecar.broker environ req)) in
  let calls := snd (run net 0 (token_broker_sidecar.broker environ req)) in
  is_allow res = true ->
  has_bearer req = true
  /\ configured environ broker_keys = true
  /\ exists rq_a resp_a rq_b resp_b jwt_for_b final_token,
       calls = [(rq_a, Replied resp_a); (rq_b, Replied resp_b)]
       /\ httpx.status_code resp_a < 500
       /\ json_field resp_a "access_token" = Some jwt_for_b
       /\ truthy jwt_for_b = true
       /\ httpx.url rq_b = os.getenv environ "KC_B_TOKEN_URL" ""
       /\ httpx.data rq_b !! "assertion" = Some jwt_for_b
       /\ httpx.status_code resp_b < 500
       /\ json_field resp_b "access_token" = Some final_token
       /\ truthy final_token = true
       /\ res = Returned (mkResponse 200 ""
                            (<["Authorization" := "Bearer " +:+ py_str final_token]>
                             (<["Cache-Control" := "no-store"%string]> ∅)) None).
Proof.
  intros res calls Hallow. subst res calls.
  destruct (run_broker_cases environ req net)
    as [(H & E) | [(H & C & E) | (scheme & rest & H1 & H2 & C & E)]];
    rewrite E in *; cbn [fst snd] in *; try discriminate.
  split; [apply has_bearer_shape; eauto |]. split; [exact C |].
  destruct (broker_run environ net (Py.strip rest)) as [res calls] eqn:Hrun.
  cbn [fst snd] in *.
  apply broker_run_calls in Hrun as [_ Hrun]. cbv zeta in Hrun.
  destruct (hop_token (net 0%nat (hop_a_request environ (Py.strip rest))))
    as [jwt|] eqn:Hj; [|destruct Hrun as [-> _]; discriminate].
  destruct Hrun as [Hc Hres].
  destruct (hop_token (net 1%nat (hop_b_request environ jwt))) as [tok|] eqn:Ht;
    [|subst res; discriminate].
  destruct (hop_token_Some _ _ Hj) as (resp_a & Ea & Hsa & Hfa & Hta).
  destruct (hop_token_Some _ _ Ht) as (resp_b & Eb & Hsb & Hfb & Htb).
  rewrite Ea, Eb in Hc.
  exists (hop_a_request environ (Py.strip rest)), resp_a,
         (hop_b_request environ jwt), resp_b, jwt, tok.
  rewrite finish_bearer in Hres.
  repeat split; try assumption.
  exact (proj1 (proj2 (data_b_lookup environ jwt))).
Qed.

(** Realm A yields [jwtA], realm B yields [finalTok]. *)
Lemma broker_allows_only_after_two_hops_witness :
  is_allow (fst (run (Sample.two_hops (Sample.ok (Sample.token_body "jwtA"))
                                      (Sample.ok (Sample.token_body "finalTok"))) 0
                   (token_broker_sidecar.broker Sample.broker_environ
                      (Sample.request "Bearer tok")))) = true
  /\ has_bearer (Sample.request "Bearer tok") = true
  /\ configured Sample.broker_environ broker_keys = true.
Proof.
  assert (H : is_allow
                (fst (run (Sample.two_hops (Sample.ok (Sample.token_body "jwtA"))
                                           (Sample.ok (Sample.token_body "finalTok"))) 0
                        (token_broker_sidecar.broker Sample.broker_environ
                           (Sample.request "Bearer tok")))) = true)
    by (vm_compute; reflexivity).
  destruct (broker_allows_only_after_two_hops
              Sample.broker_environ (Sample.request "Bearer tok")
              (Sample.two_hops (Sample.ok (Sample.token_body "jwtA"))
                               (Sample.ok (Sample.token_body "finalTok"))) H)
    as (H1 & H2 & _).
  repeat split; assumption.
Defined.

(** X7: the broker makes no outbound call when the Bearer header is
    missing or one of the six values is empty, and never more than two
    calls for one request. *)
Theorem broker_makes_at_most_two_calls environ req net :
  let calls := snd (run net 0 (token_broker_sidecar.broker environ req)) in
  (calls = [] <-> has_bearer req = false \/ configured environ broker_keys = false)
  /\ (length calls <= 2)%nat.
Proof.
  intros calls. subst calls.
  destruct (run_broker_cases environ req net)
    as [(H & E) | [(H & C & E) | (scheme & rest & H1 & H2 & C & E)]];
    rewrite E.
  - cbn [snd length]. repeat split; auto; lia.
  - cbn [snd length]. repeat split; auto; lia.
  - assert (Hb : has_bearer req = true) by (apply has_bearer_shape; eauto).
    destruct (broker_run environ net (Py.strip rest)) as [res calls] eqn:Hrun.
    cbn [snd]. apply broker_run_calls in Hrun as [_ Hrun]. cbv zeta in Hrun.
    destruct (hop_token (net 0%nat (hop_a_request environ (Py.strip rest)))) as [jwt|].
    + destruct Hrun as [-> _]. cbn [length].
      split; [split; [discriminate | intros [? | ?]; congruence] | lia].
    + destruct Hrun as [_ ->]. cbn [length].
      split; [split; [discriminate | intros [? | ?]; congruence] | lia].
Qed.

(** The keys of the form sent to realm A. *)
Lemma data_a_lookup environ incoming :
  let data := token_broker_sidecar.data_a environ incoming in
  data !! "grant_type" = Some (PStr "urn:ietf:params:oauth:grant-type:token-exchange")
  /\ data !! "subject_token" = Some (PStr incoming)
  /\ data !! "subject_token_type"
     = Some (PStr "urn:ietf:params:oauth:token-type:access_token")
  /\ data !! "scope"
     = (if nonempty (os.getenv environ "KC_A_SCOPE" "")
        then Some (PStr (os.getenv environ "KC_A_SCOPE" "")) else None)
  /\ forall k, is_Some (data !! k) ->
       k = "grant_type"%string \/ k = "subject_token"%string
       \/ k = "subject_token_type"%string \/ k = "scope"%string.
Proof.
  unfold token_broker_sidecar.data_a, token_broker_sidecar.KC_A_SCOPE. cbv zeta.
  destruct (nonempty (os.getenv environ "KC_A_SCOPE" ""));
    (do 4 (split; [reflexivity |]));
    intros k; rewrite !lookup_insert_is_Some, lookup_empty, is_Some_alt;
    intuition congruence.
Qed.

(** X8: the first outbound call of every broker run that makes one is the
    token exchange at realm A: it goes to [KC_A_TOKEN_URL] with the Basic
    header of client A, and its form has [grant_type] token-exchange, the
    stripped incoming token as [subject_token], its type, a [scope] field
    exactly when [KC_A_SCOPE] is set and not empty, and no other field
    (no client secret, no audience). *)
Theorem broker_first_call_is_token_exchange environ req net rq r :
  snd (run net 0 (token_broker_sidecar.broker environ req)) !! 0%nat = Some (rq, r) ->
  has_bearer req = true
  /\ configured environ broker_keys = true
  /\ r = net 0%nat rq
  /\ httpx.url rq = os.getenv environ "KC_A_TOKEN_URL" ""
  /\ httpx.headers rq
     = <["Authorization" :=
           token_broker_sidecar._basic_auth_header
             (os.getenv environ "KC_A_CLIENT_ID" "")
             (os.getenv environ "KC_A_CLIENT_SECRET" "")]>
       (<["Content-Type" := "application/x-www-form-urlencoded"%string]> ∅)
  /\ httpx.data rq !! "grant_type"
     = Some (PStr "urn:ietf:params:oauth:grant-type:token-exchange")
  /\ httpx.data rq !! "subject_token_type"
     = Some (PStr "urn:ietf:params:oauth:token-type:access_token")
  /\ httpx.data rq !! "scope"
     = (if nonempty (os.getenv environ "KC_A_SCOPE" "")
        then Some (PStr (os.getenv environ "KC_A_SCOPE" "")) else None)
  /\ (forall k, is_Some (httpx.data rq !! k) ->
        k = "grant_type"%string \/ k = "subject_token"%string
        \/ k = "subject_token_type"%string \/ k = "scope"%string)
  /\ exists scheme rest,
       authorization_of req = scheme +:+ String " " rest
       /\ Py.lower scheme = "bearer"%string
       /\ httpx.data rq !! "subject_token" = Some (PStr (Py.strip rest)).
Proof.
  intros H0.
  destruct (run_broker_cases environ req net)
    as [(H & E) | [(H & C & E) | (scheme & rest & H1 & H2 & C & E)]];
    rewrite E in H0; cbn [snd] in H0; try discriminate.
  split; [apply has_bearer_shape; eauto |]. split; [exact C |].
  destruct (broker_run environ net (Py.strip rest)) as [res calls] eqn:Hrun.
  cbn [snd] in H0. apply broker_run_calls in Hrun as [Hc _]. cbv zeta in Hc.
  rewrite Hc in H0. apply (inj Some) in H0. apply pair_equal_spec in H0 as [<- <-].
  destruct (data_a_lookup environ (Py.strip rest)) as (D1 & D2 & D3 & D4 & D5).
  repeat split; try assumption.
  exists scheme, rest. repeat split; assumption.
Qed.

(** With [KC_A_SCOPE=mcp-b] the form carries the scope. *)
Lemma broker_first_call_is_token_exchange_witness :
  httpx.url (Scenario.hop_a "tok") = "http://a/token"%string
  /\ httpx.data (Scenario.hop_a "tok") !! "scope" = Some (PStr "mcp-b").
Proof.
  destruct (broker_first_call_is_token_exchange Scenario.scoped_environ
              (Sample.request "Bearer tok") (Sample.answering 200 Sample.inactive)
              (Scenario.hop_a "tok")
              (Replied (httpx.Response 200 (Some Sample.inactive))))
    as (_ & _ & _ & Hurl & _ & _ & _ & Hscope & _).
  - vm_compute. reflexivity.
  - split; [exact Hurl | exact Hscope].
Defined.

(** X9: a second outbound call is made only after realm A answered below
    500 with a truthy [access_token], and it is the JWT bearer grant at
    realm B: it goes to [KC_B_TOKEN_URL] as a form, with [grant_type]
    jwt-bearer and that token, unchanged, as [assertion]; the only other
    fields the form can hold are [client_id] and [client_secret], which
    never replace the two. *)
Theorem broker_second_call_is_jwt_bearer_grant environ req net rq_b r_b :
  snd (run net 0 (token_broker_sidecar.broker environ req)) !! 1%nat = Some (rq_b, r_b) ->
  exists rq_a resp_a jwt_for_b,
    snd (run net 0 (token_broker_sidecar.broker environ req))
    = [(rq_a, Replied resp_a); (rq_b, r_b)]
    /\ httpx.status_code resp_a < 500
    /\ json_field resp_a "access_token" = Some jwt_for_b
    /\ truthy jwt_for_b = true
    /\ r_b = net 1%nat rq_b
    /\ httpx.url rq_b = os.getenv environ "KC_B_TOKEN_URL" ""
    /\ httpx.headers rq_b !! "Content-Type"
       = Some "application/x-www-form-urlencoded"%string
    /\ httpx.data rq_b !! "grant_type"
       = Some (PStr "urn:ietf:params:oauth:grant-type:jwt-bearer")
    /\ httpx.data rq_b !! "assertion" = Some jwt_for_b
    /\ forall k, is_Some (httpx.data rq_b !! k) ->
         k = "grant_type"%string \/ k = "assertion"%string
         \/ k = "client_id"%string \/ k = "client_secret"%string.
Proof.
  intros H1.
  destruct (run net 0 (token_broker_sidecar.broker environ req)) as [res calls] eqn:Hrun.
  cbn [snd] in *.
  destruct (broker_two_calls _ _ _ _ _ _ Hrun H1) as (incoming & jwt & Hj & Hc & _).
  cbv zeta in Hj, Hc. rewrite Hc in H1. cbn in H1. apply (inj Some) in H1.
  apply pair_equal_spec in H1 as [<- <-].
  destruct (hop_token_Some _ _ Hj) as (resp_a & Ea & Hsa & Hfa & Hta).
  rewrite Ea in Hc.
  destruct (data_b_lookup environ jwt) as (D1 & D2 & D3).
  exists (hop_a_request environ incoming), resp_a, jwt.
  split; [exact Hc |]. do 3 (split; [assumption |]).
  split; [reflexivity |]. split; [reflexivity |]. split.
  { cbn [hop_b_request httpx.headers]. unfold token_broker_sidecar.headers_b.
    destruct (String.eqb _ _); [|reflexivity].
    rewrite lookup_insert_ne by discriminate. apply lookup_insert_eq. }
  repeat split; assumption.
Qed.

(** The call that follows [jwtA]. *)
Lemma broker_second_call_is_jwt_bearer_grant_witness :
  exists jwt_for_b,
    httpx.data (hop_b_request Sample.broker_environ (PStr "jwtA")) !! "assertion"
    = Some jwt_for_b
    /\ truthy jwt_for_b = true.
Proof.
  destruct (broker_second_call_is_jwt_bearer_grant Sample.broker_environ
              (Sample.request "Bearer tok")
              (Sample.two_hops (Sample.ok (Sample.token_body "jwtA"))
                               (Sample.ok (Sample.token_body "finalTok")))
              (hop_b_request Sample.broker_environ (PStr "jwtA"))
              (Sample.ok (Sample.token_body "finalTok")))
    as (rq_a & resp_a & jwt & _ & _ & _ & Ht & _ & _ & _ & _ & Ha & _).
  - vm_compute. reflexivity.
  - exists jwt. split; [exact Ha | exact Ht].
Defined.




(** ** The broker in front of the gate *)



(** ** The Basic header *)

(** A digit of the standard table is a base64 character other than [=],
    and gives back its six bits. *)
Lemma standard_digit (b5 b4 b3 b2 b1 b0 : bool) :
  let d := base64.digit base64.standard_alphabet (bits_value [b5; b4; b3; b2; b1; b0]) in
  standard_digit_bits d = [b5; b4; b3; b2; b1; b0]
  /\ is_base64_char (ascii_of_byte d) = true
  /\ d <> base64.pad.
Proof. destruct b5, b4, b3, b2, b1, b0; vm_compute; repeat split; discriminate. Qed.

Lemma standard_digit_inj (a b c d e f a' b' c' d' e' f' : bool) :
  base64.digit base64.standard_alphabet (bits_value [a; b; c; d; e; f])
  = base64.digit base64.standard_alphabet (bits_value [a'; b'; c'; d'; e'; f']) ->
  [a; b; c; d; e; f] = [a'; b'; c'; d'; e'; f'].
Proof.
  intros H. apply (f_equal standard_digit_bits) in H.
  now rewrite !(proj1 (standard_digit _ _ _ _ _ _)) in H.
Qed.

(** The groups of the encoder, as digits of bit fields. *)
Lemma encode_1 alphabet x :
  base64.encode alphabet [x]
  = [base64.digit alphabet
       (bits_value [bit x 7; bit x 6; bit x 5; bit x 4; bit x 3; bit x 2]);
     base64.digit alphabet (bits_value [bit x 1; bit x 0; false; false; false; false]);
     base64.pad; base64.pad].
Proof.
  destruct (byte_fields x) as (E1 & E2 & _). cbn [base64.encode].
  now rewrite E1, E2, shift_2.
Qed.

Lemma encode_2 alphabet x y :
  base64.encode alphabet [x; y]
  = [base64.digit alphabet
       (bits_value [bit x 7; bit x 6; bit x 5; bit x 4; bit x 3; bit x 2]);
     base64.digit alphabet
       (bits_value [bit x 1; bit x 0; bit y 7; bit y 6; bit y 5; bit y 4]);
     base64.digit alphabet
       (bits_value [bit y 3; bit y 2; bit y 1; bit y 0; false; false]);
     base64.pad].
Proof.
  destruct (byte_fields x) as (E1 & E2 & _).
  destruct (byte_fields y) as (_ & _ & F3 & F4 & _). cbn [base64.encode].
  now rewrite E1, E2, F3, F4, join_2_4, shift_4.
Qed.

Lemma encode_3 alphabet x y z s :
  base64.encode alphabet (x :: y :: z :: s)
  = base64.digit alphabet
      (bits_value [bit x 7; bit x 6; bit x 5; bit x 4; bit x 3; bit x 2])
    :: base64.digit alphabet
         (bits_value [bit x 1; bit x 0; bit y 7; bit y 6; bit y 5; bit y 4])
    :: base64.digit alphabet
         (bits_value [bit y 3; bit y 2; bit y 1; bit y 0; bit z 7; bit z 6])
    :: base64.digit alphabet
         (bits_value [bit z 5; bit z 4; bit z 3; bit z 2; bit z 1; bit z 0])
    :: base64.encode alphabet s.
Proof.
  destruct (byte_fields x) as (E1 & E2 & _).
  destruct (byte_fields y) as (_ & _ & F3 & F4 & _).
  destruct (byte_fields z) as (_ & _ & _ & _ & G5 & G6). cbn [base64.encode].
  now rewrite E1, E2, F3, F4, G5, G6, join_2_4, join_4_2.
Qed.

Lemma b64encode_charset s :
  forallb (fun d => is_base64_char (ascii_of_byte d)) (base64.b64encode s) = true.
Proof.
  unfold base64.b64encode.
  induction s as [| a | a b | a b c s IH] using list_ind3.
  - reflexivity.
  - rewrite encode_1. cbn [forallb].
    now rewrite !(proj1 (proj2 (standard_digit _ _ _ _ _ _))).
  - rewrite encode_2. cbn [forallb].
    now rewrite !(proj1 (proj2 (standard_digit _ _ _ _ _ _))).
  - rewrite encode_3. cbn [forallb].
    now rewrite !(proj1 (proj2 (standard_digit _ _ _ _ _ _))), IH.
Qed.

Lemma encode_length alphabet s :
  length (base64.encode alphabet s) = (4 * ((length s + 2) / 3))%nat.
Proof.
  induction s as [| a | a b | a b c s IH] using list_ind3; try reflexivity.
  rewrite encode_3. cbn [length]. rewrite IH.
  replace (S (S (S (length s))) + 2)%nat with (1 * 3 + (length s + 2))%nat by lia.
  rewrite Nat.div_add_l by lia. lia.
Qed.

Ltac bits_of H :=
  apply standard_digit_inj in H; injection H; clear H; intros.

Lemma byte_of_its_bits x y :
  bit x 7 = bit y 7 -> bit x 6 = bit y 6 -> bit x 5 = bit y 5 -> bit x 4 = bit y 4 ->
  bit x 3 = bit y 3 -> bit x 2 = bit y 2 -> bit x 1 = bit y 1 -> bit x 0 = bit y 0 ->
  x = y.
Proof. intros. apply byte_of_bits. cbn [map]. congruence. Qed.

Ltac pad_absurd H :=
  injection H; clear H; intros;
  match goal with
  | E : base64.pad = base64.digit _ _ |- _ =>
      symmetry in E; destruct (proj2 (proj2 (standard_digit _ _ _ _ _ _)) E)
  | E : base64.digit _ _ = base64.pad |- _ =>
      destruct (proj2 (proj2 (standard_digit _ _ _ _ _ _)) E)
  end.

Lemma b64encode_inj s1 s2 : base64.b64encode s1 = base64.b64encode s2 -> s1 = s2.
Proof.
  unfold base64.b64encode. revert s2.
  induction s1 as [| a | a b | a b c s1 IH] using list_ind3;
    intros s2; destruct s2 as [|a' [|b' [|c' s2]]];
    rewrite ?encode_1, ?encode_2, ?encode_3; try discriminate; try reflexivity;
    intros H; try (pad_absurd H; fail).
  - injection H as H1 H2. bits_of H1. bits_of H2. f_equal. now apply byte_of_its_bits.
  - injection H as H1 H2 H3. bits_of H1. bits_of H2. bits_of H3.
    f_equal; [|f_equal]; now apply byte_of_its_bits.
  - injection H as H1 H2 H3 H4 Ht. bits_of H1. bits_of H2. bits_of H3. bits_of H4.
    f_equal; [|f_equal; [|f_equal]]; try now apply byte_of_its_bits.
    now apply IH.
Qed.

(** UTF-8: the first character can be read back. *)
Lemma utf8_first_encode c s : utf8_first (encode_utf8 (String c s)) = Some c.
Proof. destruct c as [[] [] [] [] [] [] [] []]; reflexivity. Qed.

Lemma encode_utf8_inj s1 s2 : encode_utf8 s1 = encode_utf8 s2 -> s1 = s2.
Proof.
  revert s2. induction s1 as [|c s1 IH]; intros [|c' s2] H.
  - reflexivity.
  - apply (f_equal utf8_first) in H. now rewrite utf8_first_encode in H.
  - apply (f_equal utf8_first) in H. now rewrite utf8_first_encode in H.
  - assert (Hc : c = c').
    { apply (f_equal utf8_first) in H. rewrite !utf8_first_encode in H. congruence. }
    subst c'. f_equal. apply IH. cbn [encode_utf8] in H.
    destruct (Py.ord c <? 128); now injection H.
Qed.

Lemma string_of_list_byte_inj l1 l2 :
  string_of_list_byte l1 = string_of_list_byte l2 -> l1 = l2.
Proof.
  intros H. apply (f_equal list_byte_of_string) in H.
  now rewrite !list_byte_of_string_of_list_byte in H.
Qed.

Lemma colon_split cid1 s1 cid2 s2 :
  contains_char ":" cid1 = false -> contains_char ":" cid2 = false ->
  cid1 +:+ String ":" s1 = cid2 +:+ String ":" s2 -> cid1 = cid2 /\ s1 = s2.
Proof.
  revert cid2. induction cid1 as [|c cid1 IH]; intros [|c' cid2] H1 H2 H.
  - cbn in H. now injection H.
  - rewrite append_cons in H. cbn in H. injection H as <- _.
    rewrite contains_char_cons in H2. now rewrite Ascii.eqb_refl in H2.
  - rewrite append_cons in H. cbn in H. injection H as -> _.
    rewrite contains_char_cons in H1. now rewrite Ascii.eqb_refl in H1.
  - rewrite !append_cons in H. injection H as <- H.
    rewrite contains_char_cons in H1, H2.
    apply orb_false_iff in H1 as [_ H1]. apply orb_false_iff in H2 as [_ H2].
    destruct (IH cid2 H1 H2 H) as [-> ->]. now split.
Qed.

(** X12: for every client id and secret the two sidecars build the same
    header: [Basic ] followed by base64 text only (letters, digits, [+],
    [/], [=]), four characters for every three bytes of the UTF-8 of
    [cid:secret]. Whatever the credentials hold (spaces, line breaks,
    characters above U+007F), the header holds none of them. *)
Theorem basic_auth_header_text cid secret :
  token_broker_sidecar._basic_auth_header cid secret
  = introspection_sidecar._basic_auth_header cid secret
  /\ exists payload,
       introspection_sidecar._basic_auth_header cid secret = "Basic " +:+ payload
       /\ forallb is_base64_char (list_ascii_of_string payload) = true
       /\ String.length payload
          = (4 * ((length (encode_utf8 (cid +:+ ":" +:+ secret)) + 2) / 3))%nat.
Proof.
  split; [reflexivity |].
  exists (decode_ascii (base64.b64encode (encode_utf8 (cid +:+ ":" +:+ secret)))).
  split; [reflexivity |]. unfold decode_ascii, string_of_list_byte. split.
  - rewrite list_ascii_of_string_of_list_ascii, forallb_map_comp.
    apply b64encode_charset.
  - rewrite string_of_list_ascii_length, length_map. apply encode_length.
Qed.

(** X13: the Basic header loses nothing of [cid:secret]: two pairs with
    the same header have the same joined text, and the same id and secret
    when the ids hold no colon. *)
Theorem basic_auth_header_determines_credentials cid1 secret1 cid2 secret2 :
  introspection_sidecar._basic_auth_header cid1 secret1
  = introspection_sidecar._basic_auth_header cid2 secret2 ->
  cid1 +:+ ":" +:+ secret1 = cid2 +:+ ":" +:+ secret2
  /\ (contains_char ":" cid1 = false -> contains_char ":" cid2 = false ->
      cid1 = cid2 /\ secret1 = secret2).
Proof.
  unfold introspection_sidecar._basic_auth_header. cbv zeta. intros H.
  rewrite !append_cons in H. injection H as H.
  apply string_of_list_byte_inj, b64encode_inj, encode_utf8_inj in H.
  split; [exact H |]. intros H1 H2. now apply (colon_split _ _ _ _ H1 H2).
Qed.

(** With a colon in the id, two pairs share a header. *)
Lemma basic_auth_header_determines_credentials_witness :
  introspection_sidecar._basic_auth_header "a:b" "c"
  = introspection_sidecar._basic_auth_header "a" "b:c"
  /\ "a:b" +:+ ":" +:+ "c" = "a" +:+ ":" +:+ "b:c".
Proof.
  assert (H : introspection_sidecar._basic_auth_header "a:b" "c"
              = introspection_sidecar._basic_auth_header "a" "b:c")
    by (vm_compute; reflexivity).
  split; [exact H |].
  exact (proj1 (basic_auth_header_determines_credentials "a:b" "c" "a" "b:c" H)).
Defined.

(** ** The flow, whatever the callback *)

Section Wait.

Import get_token.
Lemma do_GET_current_tokens q g g' p :
  do_GET q g = Returned (g', p) -> current_tokens g' = current_tokens g.
Proof.
  unfold do_GET. intros H.
  repeat match type of H with
         | match ?x with _ => _ end = _ => destruct x
         end; injection H as <- _ || discriminate H; reflexivity.
Qed.

(** Without a [code] parameter the handler leaves the globals as they are. *)
Lemma do_GET_no_code q g g' p :
  q !! "code" = None -> do_GET q g = Returned (g', p) -> g' = g.
Proof.
  unfold do_GET. intros -> H.
  repeat match type of H with
         | match ?x with _ => _ end = _ => destruct x
         end; injection H as <- _ || discriminate H; reflexivity.
Qed.

Lemma code_of_Some q c :
  code_of q = Some c <-> (exists rest, q !! "code" = Some (c :: rest)) /\ nonempty c = true.
Proof.
  unfold code_of. destruct (q !! "code") as [[|c' rest]|].
  - split; [discriminate | intros [[? [=]] _]].
  - destruct (nonempty c') eqn:Hc.
    + split; [intros [= <-]; eauto | intros [[? [= <- _]] _]; reflexivity].
    + split; [discriminate | intros [[? [= <- _]] ?]; congruence].
  - split; [discriminate | intros [[? [=]] _]].
Qed.

(** One second in which no code comes leaves the flow without a code. *)
Lemma sleep_silent callback i g :
  has_code g = false ->
  (forall t q, callback = Some (t, q) -> t = i -> code_of q = None) ->
  has_code (sleep callback i g) = false
  /\ current_tokens (sleep callback i g) = current_tokens g.
Proof.
  intros Hg Hq. unfold sleep. destruct callback as [[t q]|]; [|now split].
  destruct (Nat.eqb_spec t i) as [->|Hne]; [|now split].
  specialize (Hq i q eq_refl eq_refl).
  destruct (do_GET q g) as [[g' p]|e] eqn:E; [|now split].
  split; [|now apply (do_GET_current_tokens _ _ _ _ E)].
  unfold code_of in Hq. unfold do_GET in E.
  destruct (q !! "code") as [[|c rest]|] eqn:Hc.
  - discriminate.
  - injection E as <- _. unfold has_code. cbn.
    destruct (nonempty c); [discriminate | reflexivity].
  - assert (g' = g) as ->; [|exact Hg].
    apply (do_GET_no_code q g g' p Hc). unfold do_GET. now rewrite Hc.
Qed.

Lemma wait_silent callback n i g :
  has_code g = false ->
  (forall t q, callback = Some (t, q) -> (i <= t < i + n)%nat -> code_of q = None) ->
  has_code (wait callback n i g) = false
  /\ current_tokens (wait callback n i g) = current_tokens g.
Proof.
  revert i g. induction n as [|n IH]; intros i g Hg Hq; [now split |].
  cbn [wait].
  destruct (sleep_silent callback i g Hg) as [Hs Ht].
  { intros t q E ->. apply (Hq i q E). lia. }
  rewrite Hs. destruct (IH (S i) (sleep callback i g) Hs) as [Hw Hw'].
  { intros t q E Hr. apply (Hq t q E). lia. }
  split; [exact Hw | congruence].
Qed.

Lemma wait_current_tokens callback n i g :
  current_tokens (wait callback n i g) = current_tokens g.
Proof.
  revert i g. induction n as [|n IH]; intros i g; [reflexivity |].
  cbn [wait].
  assert (Hs : current_tokens (sleep callback i g) = current_tokens g).
  { unfold sleep. destruct callback as [[t q]|]; [|reflexivity].
    destruct (Nat.eqb t i); [|reflexivity].
    destruct (do_GET q g) as [[g' p]|e] eqn:E; [|reflexivity].
    now apply (do_GET_current_tokens _ _ _ _ E). }
  destruct (has_code _); [exact Hs | now rewrite IH].
Qed.

(** The wait ends with the delivered code, or without any. *)
Lemma wait_delivered callback g :
  has_code g = false ->
  match delivered callback with
  | Some c => wait callback 120 0 g = set_auth_code (Some c) g /\ nonempty c = true
  | None => has_code (wait callback 120 0 g) = false
  end.
Proof.
  intros Hg. unfold delivered. destruct callback as [[t q]|].
  - destruct (Nat.ltb_spec t 120) as [Ht|Ht].
    + destruct (code_of q) as [c|] eqn:Hc.
      * apply code_of_Some in Hc as [[rest Hq] Hc]. split; [|exact Hc].
        apply (wait_receives t q c rest); auto. lia.
      * apply wait_silent; [exact Hg |]. now intros t' q' [= <- <-] _.
    + apply wait_silent; [exact Hg |]. intros t' q' [= <- <-] Hr. lia.
  - apply wait_silent; [exact Hg |]. discriminate.
Qed.

(** A callback that brings no [code] parameter, or comes too late, leaves
    every second of the wait as it is without callback. *)
Lemma wait_unnoticed t q n i g :
  q !! "code" = None \/ (i + n <= t)%nat ->
  wait (Some (t, q)) n i g = wait None n i g.
Proof.
  revert i g. induction n as [|n IH]; intros i g H; [reflexivity |].
  cbn [wait].
  assert (Hs : sleep (Some (t, q)) i g = sleep None i g).
  { unfold sleep. destruct (Nat.eqb_spec t i) as [->|Hne]; [|reflexivity].
    destruct H as [H | H]; [|lia].
    destruct (do_GET q g) as [[g' p]|e] eqn:E; [|reflexivity].
    apply (do_GET_no_code _ _ _ _ H E). }
  rewrite Hs. destruct (has_code _); [reflexivity |]. apply IH.
  destruct H as [H | H]; [now left | right; lia].
Qed.

End Wait.

Lemma login_flow_cases token_bytes callback keycloak_token g :
  let r := get_token.login_flow token_bytes callback keycloak_token g in
  let g0 := get_token.set_code_verifier (Some (fst (get_token.pkce token_bytes)))
              (get_token.set_auth_code None g) in
  match delivered callback with
  | None =>
      r = get_token.mkRun false (get_token.wait callback 120 0 g0)
            (get_token.auth_params (snd (get_token.pkce token_bytes))) []
  | Some c =>
      let g1 := get_token.set_auth_code (Some c) g0 in
      let call := token_request token_bytes c in
      r = match keycloak_token call with
          | Returned (PDict items) =>
              get_token.mkRun true
                (get_token.set_current_tokens
                   (<["refresh_token" := default PNone (items_get items "refresh_token")]>
                    (<["access_token" := default PNone (items_get items "access_token")]>
                     (get_token.current_tokens g)))
                   g1)
                (get_token.auth_params (snd (get_token.pkce token_bytes))) [call]
          | _ => get_token.mkRun false g1
                   (get_token.auth_params (snd (get_token.pkce token_bytes))) [call]
          end
  end.
Proof.
  intros r g0. subst r g0. unfold get_token.login_flow, token_request.
  destruct (get_token.pkce token_bytes) as [verifier challenge]. cbn [fst snd].
  match goal with |- context [get_token.wait callback 120 0 ?g0] =>
    pose proof (wait_delivered callback g0 eq_refl) as Hw; set (g1 := g0) in *
  end.
  destruct (delivered callback) as [c|].
  - destruct Hw as [-> Hc]. unfold get_token.has_code.
    cbn [get_token.auth_code get_token.set_auth_code]. rewrite Hc. cbn [negb].
    cbn [default from_option id get_token.auth_code get_token.code_verifier
         get_token.set_auth_code get_token.set_code_verifier].
    destruct (keycloak_token _) as [[]|e]; reflexivity.
  - rewrite Hw. reflexivity.
Qed.

(** X14: a callback that brings no [code] parameter (an authorization
    error, for one) or that comes after the 120 seconds of the wait is not
    noticed by the flow: the run is the run in which no callback comes at
    all. It waits to the end, makes no token request and returns False. *)
Theorem callback_without_code_goes_unnoticed token_bytes keycloak_token g t q :
  q !! "code" = None \/ (120 <= t)%nat ->
  let r := get_token.login_flow token_bytes (Some (t, q)) keycloak_token g in
  r = get_token.login_flow token_bytes None keycloak_token g
  /\ get_token.returned r = false
  /\ get_token.token_calls r = [].
Proof.
  intros H r.
  assert (E : r = get_token.login_flow token_bytes None keycloak_token g).
  { subst r. unfold get_token.login_flow.
    destruct (get_token.pkce token_bytes) as [verifier challenge].
    rewrite wait_unnoticed; [reflexivity |]. destruct H as [H | H]; [now left | right; lia]. }
  split; [exact E |]. rewrite E.
  pose proof (login_flow_cases token_bytes None keycloak_token g) as Hc.
  cbv zeta in Hc. cbn [delivered] in Hc. rewrite Hc. now split.
Qed.

(** The user denies consent after three seconds. *)
Lemma callback_without_code_goes_unnoticed_witness :
  get_token.login_flow Sample.zero_bytes (Some (3%nat, Scenario.denied))
    Sample.token_endpoint get_token.initial
  = get_token.login_flow Sample.zero_bytes None Sample.token_endpoint get_token.initial.
Proof.
  refine (proj1 (callback_without_code_goes_unnoticed Sample.zero_bytes
                   Sample.token_endpoint get_token.initial 3 Scenario.denied _)).
  left. reflexivity.
Defined.

(** X15: a run makes at most one token request, and makes it exactly when
    a callback handled within the 120 seconds brings a non-empty first
    [code]: the request then carries that code, the grant type
    [authorization_code], the redirect URI, the verifier of the run and
    the Basic header of [mcp:<secret>]. The run returns True exactly when
    that request is answered with an object. *)
Theorem login_flow_exchanges_the_delivered_code token_bytes callback keycloak_token g :
  let r := get_token.login_flow token_bytes callback keycloak_token g in
  get_token.token_calls r
  = match delivered callback with
    | Some c => [token_request token_bytes c]
    | None => []
    end
  /\ (get_token.returned r = true
      <-> exists c items,
            delivered callback = Some c
            /\ keycloak_token (token_request token_bytes c) = Returned (PDict items)).
Proof.
  intros r. pose proof (login_flow_cases token_bytes callback keycloak_token g) as Hc.
  cbv zeta in Hc. fold r in Hc. destruct (delivered callback) as [c|].
  - destruct (keycloak_token (token_request token_bytes c)) as [v|e] eqn:E.
    + destruct v; rewrite Hc; cbn [get_token.token_calls get_token.returned];
        (split; [reflexivity |]);
        (split; [try discriminate; intros _; eauto
                | intros (c' & items' & [= <-] & Hk); rewrite E in Hk;
                  try discriminate; reflexivity]).
    + rewrite Hc. cbn [get_token.token_calls get_token.returned].
      split; [reflexivity |]. split; [discriminate |].
      intros (c' & items' & [= <-] & Hk). rewrite E in Hk. discriminate.
  - rewrite Hc. cbn [get_token.token_calls get_token.returned].
    split; [reflexivity |]. split; [discriminate | intros (c' & items' & [=] & _)].
Qed.

(** X16: [current_tokens] changes only in a run that returns True, and
    then both entries are overwritten with the [access_token] and
    [refresh_token] of the token response, [None] for one that is
    missing: an answer without refresh token erases the one stored
    before. A run that returns False leaves the stored tokens as they
    were. *)
Theorem tokens_are_stored_on_success_only token_bytes callback keycloak_token g :
  let r := get_token.login_flow token_bytes callback keycloak_token g in
  if get_token.returned r
  then exists call items,
         get_token.token_calls r = [call]
         /\ keycloak_token call = Returned (PDict items)
         /\ get_token.current_tokens (get_token.globals_after r)
            = <["refresh_token" := default PNone (items_get items "refresh_token")]>
              (<["access_token" := default PNone (items_get items "access_token")]>
               (get_token.current_tokens g))
  else get_token.current_tokens (get_token.globals_after r) = get_token.current_tokens g.
Proof.
  intros r. pose proof (login_flow_cases token_bytes callback keycloak_token g) as Hc.
  cbv zeta in Hc. fold r in Hc. destruct (delivered callback) as [c|].
  - destruct (keycloak_token (token_request token_bytes c)) as [v|e] eqn:E.
    + destruct v; rewrite Hc; cbn [get_token.returned get_token.globals_after];
        try reflexivity.
      exists (token_request token_bytes c), items. now repeat split.
    + rewrite Hc. reflexivity.
  - rewrite Hc. cbn [get_token.returned get_token.globals_after].
    now rewrite wait_current_tokens.
Qed.

(** ** The digest has 32 bytes *)

Lemma round_length s kw : length s = 8%nat -> length (hashlib.round s kw) = 8%nat.
Proof.
  destruct s as [|a [|b [|c [|d [|e [|f [|g [|h [|i s]]]]]]]]]; try discriminate.
  reflexivity.
Qed.

Lemma fold_round_length l s :
  length s = 8%nat -> length (fold_left hashlib.round l s) = 8%nat.
Proof.
  revert s. induction l as [|kw l IH]; intros s H; [exact H |].
  cbn [fold_left]. now apply IH, round_length.
Qed.

Lemma compress_length h block :
  length h = 8%nat -> length (hashlib.compress h block) = 8%nat.
Proof.
  intros H. unfold hashlib.compress.
  rewrite length_map, length_combine, fold_round_length, H; [reflexivity | exact H].
Qed.

Lemma fold_compress_length blocks h :
  length h = 8%nat -> length (fold_left hashlib.compress blocks h) = 8%nat.
Proof.
  revert h. induction blocks as [|b blocks IH]; intros h H; [exact H |].
  cbn [fold_left]. now apply IH, compress_length.
Qed.

Lemma sha256_length msg : length (hashlib.sha256 msg) = 32%nat.
Proof.
  unfold hashlib.sha256.
  match goal with |- context [fold_left hashlib.compress ?bs hashlib.H0] =>
    pose proof (fold_compress_length bs hashlib.H0) as H;
    set (h := fold_left hashlib.compress bs hashlib.H0) in *
  end.
  assert (H0 : length hashlib.H0 = 8%nat) by (vm_compute; reflexivity).
  specialize (H H0). rewrite length_map.
  destruct h as [|a [|b [|c [|d [|e [|f [|g [|i [|j h]]]]]]]]]; try discriminate.
  reflexivity.
Qed.

(** X17: in every run, whatever [secrets.token_bytes] gives, the code
    challenge sent has 43 characters of the base64url alphabet (the
    length RFC 7636 fixes for S256): the SHA-256 digest has 32 bytes. *)
Theorem code_challenge_shape token_bytes callback keycloak_token g :
  let r := get_token.login_flow token_bytes callback keycloak_token g in
  exists challenge,
    get_token.opened r !! "code_challenge" = Some challenge
    /\ String.length challenge = 43%nat
    /\ forallb is_base64url_char (list_ascii_of_string challenge) = true.
Proof.
  intros r.
  destruct (login_flow_pkce token_bytes keycloak_token callback g) as [_ Ho].
  fold r in Ho. rewrite Ho. unfold get_token.pkce. cbn [snd].
  rewrite (rstrip_urlsafe_b64encode (hashlib.sha256 _)).
  eexists. split.
  - unfold get_token.auth_params.
    repeat (rewrite lookup_insert_ne by discriminate). apply lookup_insert_eq.
  - split; [now rewrite unpadded_length, sha256_length | apply unpadded_charset].
Qed.

(** ** The protected tool *)

Lemma scope_in_In scope user_scopes :
  server_auth.scope_in scope user_scopes = true <-> In scope user_scopes.
Proof.
  unfold server_auth.scope_in. rewrite existsb_exists. split.
  - intros (s & Hin & ->%String.eqb_eq). exact Hin.
  - intros Hin. exists scope. split; [exact Hin | apply String.eqb_refl].
Qed.

(** X18: [has_required_scopes] holds exactly when every required scope
    is among the user's scopes, compared as whole texts: order and
    repetition do not matter, and an empty requirement is always met. *)
Theorem has_required_scopes_inclusion user_scopes required_scopes :
  server_auth.has_required_scopes user_scopes required_scopes = true
  <-> forall scope, In scope required_scopes -> In scope user_scopes.
Proof.
  unfold server_auth.has_required_scopes. rewrite forallb_forall.
  split; intros H scope Hin; apply scope_in_In; auto.
Qed.

(** X19: the tool answers [Hello.] exactly when the request carries
    verified token information whose scopes include [hello]; without
    token information, or without that scope, it raises
    [MCPAuthBearerAuthException(MISSING_REQUIRED_SCOPES)]. *)
Theorem hello_needs_the_hello_scope auth_info :
  (server_auth.hello auth_info = inl "Hello."%string
   <-> exists info, auth_info = Some info /\ In "hello"%string (server_auth.scopes info))
  /\ (server_auth.hello auth_info <> inl "Hello."%string ->
      server_auth.hello auth_info
      = inr (server_auth.MCPAuthBearerAuthException server_auth.MISSING_REQUIRED_SCOPES)).
Proof.
  unfold server_auth.hello, server_auth.has_required_scopes. cbv zeta.
  cbn [forallb]. rewrite andb_true_r.
  destruct auth_info as [info|].
  - destruct (server_auth.scope_in "hello" (server_auth.scopes info)) eqn:E; cbn [negb].
    + apply scope_in_In in E. split; [|congruence]. split; eauto.
    + split; [|reflexivity]. split; [discriminate |].
      intros (info' & [= <-] & Hin). apply scope_in_In in Hin. congruence.
  - cbn. split; [|reflexivity]. split; [discriminate | intros (info & [=] & _)].
Qed.
